(** * A shallow embedding of [api.py], the HTTP gateway of embedd-chain

    The gateway forwards requests to an external retrieval engine
    ([embedchain.App]) and to a hosted database ([supabase]).  What the
    repository itself contributes is
    - [generate_workspace_id], a random 12-character identifier;
    - [get_workspace_app], the per-workspace cache of engine objects;
    - [verify_hmac_signature], the check of the [X-Signature] header;
    - six request handlers.

    Python objects are modelled as follows.  A [str] or [bytes] value is a
    Rocq [string], one [ascii] per byte (header values reach the handler
    decoded as latin-1, one character per byte; a value of the
    environment is held as the bytes of the variable).  The dictionary
    [workspace_apps] is a [gmap string handle], a handle being the identity
    of an [EmbedChainApp] object.  Handlers run in a state-and-exception
    monad over a [world]; external libraries (the engine and its
    constructor, the database, the random number generator) are an
    interface the world is parameterised by; the engine, its constructor
    and the database may raise. *)

From Stdlib Require Import ZArith List String Ascii Lia.
From stdpp Require Import gmap strings pretty.

#[local] Set Warnings "-register-all".

Local Open Scope Z_scope.

(** ** [hashlib.sha256] and [hmac.new(...).hexdigest()]

    SHA-256 after FIPS 180-4 and HMAC after RFC 2104, over 32-bit words
    held in [Z]. *)
Module SHA256.

Definition byte_of_ascii (c : ascii) : Z := Z.of_N (N_of_ascii c).
Fixpoint bytes_of_string (s : string) : list Z :=
  match s with
  | EmptyString => []
  | String c s' => byte_of_ascii c :: bytes_of_string s'
  end.

Definition w32 (x : Z) : Z := x mod 2 ^ 32.
Definition add32 (x y : Z) : Z := w32 (x + y).
Definition rotr (n x : Z) : Z :=
  Z.lor (Z.shiftr x n) (w32 (Z.shiftl x (32 - n))).
Definition not32 (x : Z) : Z := Z.lxor x (2 ^ 32 - 1).

Definition Ch (x y z : Z) : Z := Z.lxor (Z.land x y) (Z.land (not32 x) z).
Definition Maj (x y z : Z) : Z :=
  Z.lxor (Z.lxor (Z.land x y) (Z.land x z)) (Z.land y z).
Definition Sigma0 (x : Z) : Z := Z.lxor (Z.lxor (rotr 2 x) (rotr 13 x)) (rotr 22 x).
Definition Sigma1 (x : Z) : Z := Z.lxor (Z.lxor (rotr 6 x) (rotr 11 x)) (rotr 25 x).
Definition sigma0 (x : Z) : Z := Z.lxor (Z.lxor (rotr 7 x) (rotr 18 x)) (Z.shiftr x 3).
Definition sigma1 (x : Z) : Z := Z.lxor (Z.lxor (rotr 17 x) (rotr 19 x)) (Z.shiftr x 10).

(** The constants of the standard are fractional parts of roots of the
    first primes: 32 bits of the cube roots of the first 64 for the round
    constants, of the square roots of the first 8 for the initial hash. *)
Definition is_prime (n : nat) : bool :=
  forallb (fun d => negb (Nat.eqb (Nat.modulo n d) 0)) (List.seq 2 (n - 2)).

Definition primes : list Z :=
  Eval vm_compute in List.map Z.of_nat (List.filter is_prime (List.seq 2 310)).

(** The integer cube root, found bit by bit from bit [bits - 1] down. *)
Fixpoint cube_root_from (bits : nat) (n r : Z) : Z :=
  match bits with
  | O => r
  | S bits' =>
      let r' := r + 2 ^ Z.of_nat bits' in
      cube_root_from bits' n (if r' * r' * r' <=? n then r' else r)
  end.

Definition cube_root (n : Z) : Z := cube_root_from 40 n 0.

Definition K : list Z :=
  Eval vm_compute in List.map (fun p => cube_root (p * 2 ^ 96) mod 2 ^ 32) primes.

(** The eight working variables, and the hash value between blocks. *)
Record hstate := HState { ha : Z; hb : Z; hc : Z; hd : Z; he : Z; hf : Z; hg : Z; hh : Z }.

Definition root_bits (p : Z) : Z := Z.sqrt (p * 2 ^ 64) mod 2 ^ 32.

Definition H0 : hstate :=
  Eval vm_compute in
    HState (root_bits 2) (root_bits 3) (root_bits 5) (root_bits 7)
           (root_bits 11) (root_bits 13) (root_bits 17) (root_bits 19).

(** Padding: a 1 bit, zeros up to 56 mod 64 bytes, the bit length on 8 bytes. *)
Fixpoint be_bytes (n : nat) (x : Z) : list Z :=
  match n with
  | O => []
  | S n' => (Z.shiftr x (8 * Z.of_nat n')) mod 256 :: be_bytes n' x
  end.

Definition pad (msg : list Z) : list Z :=
  let len := Z.of_nat (List.length msg) in
  let zeros := Z.to_nat ((55 - len) mod 64) in
  msg ++ 0x80 :: List.repeat 0 zeros ++ be_bytes 8 (8 * len).

Fixpoint words_of_bytes (l : list Z) : list Z :=
  match l with
  | b0 :: b1 :: b2 :: b3 :: l' =>
      (b0 * 2 ^ 24 + b1 * 2 ^ 16 + b2 * 2 ^ 8 + b3) :: words_of_bytes l'
  | _ => []
  end.

(** The message schedule, most recent word first: [rev_schedule n w]
    extends the reversed list [w] of the words computed so far by [n] more. *)
Fixpoint rev_schedule (n : nat) (w : list Z) : list Z :=
  match n with
  | O => w
  | S n' =>
      let wt := add32 (add32 (sigma1 (nth 1 w 0)) (nth 6 w 0))
                      (add32 (sigma0 (nth 14 w 0)) (nth 15 w 0)) in
      rev_schedule n' (wt :: w)
  end.

Definition schedule (block : list Z) : list Z :=
  List.rev (rev_schedule 48 (List.rev block)).

Definition round (s : hstate) (kw : Z * Z) : hstate :=
  let '(k, w) := kw in
  let t1 := add32 (add32 (add32 (hh s) (Sigma1 (he s))) (Ch (he s) (hf s) (hg s)))
                  (add32 k w) in
  let t2 := add32 (Sigma0 (ha s)) (Maj (ha s) (hb s) (hc s)) in
  HState (add32 t1 t2) (ha s) (hb s) (hc s) (add32 (hd s) t1) (he s) (hf s) (hg s).

Definition compress (h : hstate) (block : list Z) : hstate :=
  let s := List.fold_left round (List.combine K (schedule block)) h in
  HState (add32 (ha h) (ha s)) (add32 (hb h) (hb s)) (add32 (hc h) (hc s))
         (add32 (hd h) (hd s)) (add32 (he h) (he s)) (add32 (hf h) (hf s))
         (add32 (hg h) (hg s)) (add32 (hh h) (hh s)).

(** The blocks of a padded message, 16 words each; [fuel] bounds their number. *)
Fixpoint hash_blocks (fuel : nat) (h : hstate) (ws : list Z) : hstate :=
  match fuel, ws with
  | S fuel', _ :: _ => hash_blocks fuel' (compress h (List.firstn 16 ws)) (List.skipn 16 ws)
  | _, _ => h
  end.

Definition digest_words (msg : list Z) : hstate :=
  let ws := words_of_bytes (pad msg) in
  hash_blocks (List.length ws) H0 ws.

Definition word_bytes (w : Z) : list Z := be_bytes 4 w.

Definition digest (msg : list Z) : list Z :=
  let h := digest_words msg in
  word_bytes (ha h) ++ word_bytes (hb h) ++ word_bytes (hc h) ++ word_bytes (hd h) ++
  word_bytes (he h) ++ word_bytes (hf h) ++ word_bytes (hg h) ++ word_bytes (hh h).

(** Lower-case hexadecimal, as [hexdigest] prints it. *)
Definition hex_alphabet : list ascii :=
  [ "0"; "1"; "2"; "3"; "4"; "5"; "6"; "7";
    "8"; "9"; "a"; "b"; "c"; "d"; "e"; "f" ]%char.

Definition hexdigit (n : Z) : ascii := nth (Z.to_nat n) hex_alphabet "0"%char.

Definition hex_word (w : Z) : string :=
  String (hexdigit (Z.shiftr w 28 mod 16)) (String (hexdigit (Z.shiftr w 24 mod 16))
  (String (hexdigit (Z.shiftr w 20 mod 16)) (String (hexdigit (Z.shiftr w 16 mod 16))
  (String (hexdigit (Z.shiftr w 12 mod 16)) (String (hexdigit (Z.shiftr w 8 mod 16))
  (String (hexdigit (Z.shiftr w 4 mod 16)) (String (hexdigit (w mod 16)) EmptyString))))))).

Definition hex_of_hstate (h : hstate) : string :=
  (hex_word (ha h) ++ hex_word (hb h) ++ hex_word (hc h) ++ hex_word (hd h) ++
   hex_word (he h) ++ hex_word (hf h) ++ hex_word (hg h) ++ hex_word (hh h))%string.

Definition sha256_hexdigest (msg : string) : string :=
  hex_of_hstate (digest_words (bytes_of_string msg)).

(** HMAC: a key longer than the 64-byte block is hashed first, then padded
    with zeros to the block size. *)
Definition block_size : nat := 64.

Definition hmac_key (key : list Z) : list Z :=
  let k := if Nat.ltb block_size (List.length key) then digest key else key in
  k ++ List.repeat 0 (block_size - List.length k).

Definition xor_pad (p : Z) (key : list Z) : list Z := List.map (Z.lxor p) key.

Definition hmac_words (key msg : list Z) : hstate :=
  let k := hmac_key key in
  digest_words (xor_pad 0x5c k ++ digest (xor_pad 0x36 k ++ msg)).

Definition hmac_hexdigest (key msg : string) : string :=
  hex_of_hstate (hmac_words (bytes_of_string key) (bytes_of_string msg)).

End SHA256.

(** ** Python values, exceptions and the world the gateway runs in *)

Local Open Scope nat_scope.

(** The identity of an [EmbedChainApp] object. *)
Definition handle := nat.

(** The values handlers receive from the engine and return as JSON. *)
Inductive value :=
| VNone
| VStr (s : string)
| VList (l : list value)
| VDict (d : list (string * value)).

(** The exceptions that occur; all are subclasses of [Exception].  A
    constructor stands for its class and the subclasses not listed:
    [UnicodeEncodeError] is a [ValueError]. *)
Inductive exn :=
| HTTPException (status_code : nat) (detail : string)
| ValueError (msg : string)
| TypeError (msg : string)
| AttributeError (msg : string)
| KeyError (msg : string)
| IndexError (msg : string)
| Exception (msg : string).

(** [str(e)]. *)
Definition str (e : exn) : string :=
  match e with
  | HTTPException status_code detail => pretty status_code +:+ ": " +:+ detail
  | ValueError msg | TypeError msg | AttributeError msg
  | KeyError msg | IndexError msg | Exception msg => msg
  end.

Inductive result (A : Type) :=
| Ok (a : A)
| Raise (e : exn).
Arguments Ok {A} a.
Arguments Raise {A} e.

(** The first argument of [App.add]: a locator, or a question/answer tuple. *)
Inductive source :=
| SourceStr (s : string)
| SourcePair (question answer : string).

(** A call of one of the engine's methods, with its keyword arguments. *)
Inductive engine_call :=
| Search (query : string) (num_documents : nat) (metadata : gmap string string)
| Add (src : source) (data_type : string) (metadata : gmap string string)
| ListData (metadata : gmap string string)
| DeleteData (file_name : string) (metadata : gmap string string).

Definition call_metadata (c : engine_call) : gmap string string :=
  match c with
  | Search _ _ md | Add _ _ md | ListData md | DeleteData _ md => md
  end.

(** The engine's capabilities, as section 4.4 of the specification lists
    them: [add] with a pair counts apart from [add] with a locator. *)
Inductive capability := CapSearch | CapAdd | CapAddPair | CapListData | CapDeleteData.

Definition call_capability (c : engine_call) : capability :=
  match c with
  | Search _ _ _ => CapSearch
  | Add (SourceStr _) _ _ => CapAdd
  | Add (SourcePair _ _) _ _ => CapAddPair
  | ListData _ => CapListData
  | DeleteData _ _ => CapDeleteData
  end.

(** What a run does, in order. *)
Inductive event :=
| SignatureCheck
| Resolve (workspace_id : string)
| FromConfig (config_path : string) (h : handle)
| EngineCall (h : handle) (c : engine_call)
| BackendInsert (table : string) (row : list (string * value)).

(** The libraries the gateway calls, as state transformers over a state
    [Ext] of the outside world.  [random] yields the numerator [p] of the
    float [p / 2^53] that [random.random()] returns.  [app_from_config]
    is the engine's constructor: it reads the configuration file, may act
    on the outside world, and returns or raises. *)
Class External (Ext : Type) := {
  random : Ext -> N * Ext;
  app_from_config : string -> Ext -> result unit * Ext;
  app_search : handle -> string -> nat -> gmap string string -> Ext -> result (list value) * Ext;
  app_add : handle -> source -> string -> gmap string string -> Ext -> result value * Ext;
  app_list_data : handle -> gmap string string -> Ext -> result value * Ext;
  app_delete_data : handle -> string -> gmap string string -> Ext -> result value * Ext;
  supabase_insert :
    string -> string -> string -> list (string * value) -> Ext -> result value * Ext
}.

Record world (Ext : Type) := World {
  workspace_apps : gmap string handle;   (* the module-level dictionary *)
  next_handle : handle;                  (* the next object to be allocated *)
  environ : gmap string string;          (* os.environ, a value as its bytes *)
  ext : Ext
}.
Arguments World {Ext}.
Arguments workspace_apps {Ext}.
Arguments next_handle {Ext}.
Arguments environ {Ext}.
Arguments ext {Ext}.

(** ** The request models *)

(** The framework's [Request]: [headers] by header name, and the raw body. *)
Record Request := {
  headers : gmap string string;
  body : string
}.

Record QuestionRequest := {
  qr_question : string;
  qr_session_id : string;
  qr_workspace_id : string;
  qr_supabase_url : string;
  qr_supabase_key : string
}.

Record TrainRequest := {
  tr_file_url : string;
  tr_data_type : string;
  tr_workspace_id : string;
  tr_supabase_url : string;
  tr_supabase_key : string
}.

Record QnARequest := {
  qa_question : string;
  qa_answer : string;
  qa_data_type : string;
  qa_workspace_id : string;
  qa_supabase_url : string;
  qa_supabase_key : string
}.

Record WorkspaceCreateRequest := {
  wc_workspace_name : string;
  wc_supabase_url : string;
  wc_supabase_key : string
}.

(** [string.ascii_letters] and [string.digits]. *)
Definition ascii_letters : string :=
  "abcdefghijklmnopqrstuvwxyzABCDEFGHIJKLMNOPQRSTUVWXYZ".
Definition digits : string := "0123456789".

(** A letter or a digit of ASCII, by its code. *)
Definition is_alnum (c : ascii) : bool :=
  let n := N_of_ascii c in
  ((48 <=? n) && (n <=? 57) || (65 <=? n) && (n <=? 90) || (97 <=? n) && (n <=? 122))%N.

(** Python truth of a string, and of [dict.get]'s result. *)
Definition truthy (s : string) : bool :=
  match s with EmptyString => false | String _ _ => true end.

Definition truthy_opt (o : option string) : bool :=
  match o with None => false | Some s => truthy s end.

Definition is_ascii_char (c : ascii) : bool := (N_of_ascii c <? 128)%N.

Fixpoint is_ascii (s : string) : bool :=
  match s with
  | EmptyString => true
  | String c s' => is_ascii_char c && is_ascii s'
  end.

Definition is_ValueError (e : exn) : bool :=
  match e with ValueError _ => true | _ => false end.

Definition workspace_filter (workspace_id : string) : gmap string string :=
  {[ "workspace_id"%string := workspace_id ]}.

(** ** [str.encode()] on a value read from the environment

    [os.getenv] decodes the bytes of a variable as UTF-8 with the
    [surrogateescape] handler: a well-formed sequence becomes one
    character, any other byte [b] the lone surrogate [U+DC00 + b].  Such a
    [str] is held here as the bytes it was decoded from.  [encode()] has
    no handler: it returns the same bytes when no surrogate is present,
    and raises [UnicodeEncodeError] at the first run of surrogates. *)

Definition continuation (b : N) : bool := ((0x80 <=? b) && (b <=? 0xBF))%N.

Definition second_of_three (b0 b1 : N) : bool :=
  ((b0 =? 0xE0) && (0xA0 <=? b1) && (b1 <=? 0xBF)
   || (0xE1 <=? b0) && (b0 <=? 0xEC) && continuation b1
   || (b0 =? 0xED) && (0x80 <=? b1) && (b1 <=? 0x9F)
   || (0xEE <=? b0) && (b0 <=? 0xEF) && continuation b1)%N.

Definition second_of_four (b0 b1 : N) : bool :=
  ((b0 =? 0xF0) && (0x90 <=? b1) && (b1 <=? 0xBF)
   || (0xF1 <=? b0) && (b0 <=? 0xF3) && continuation b1
   || (b0 =? 0xF4) && (0x80 <=? b1) && (b1 <=? 0x8F))%N.

(** The length of the well-formed UTF-8 sequence at the head of [l], or 0
    when none starts there. *)
Definition utf8_sequence_length (l : list N) : nat :=
  match l with
  | [] => 0
  | b0 :: l1 =>
      if (b0 <=? 0x7F)%N then 1 else
      match l1 with
      | [] => 0
      | b1 :: l2 =>
          if ((0xC2 <=? b0) && (b0 <=? 0xDF))%N && continuation b1 then 2 else
          match l2 with
          | [] => 0
          | b2 :: l3 =>
              if second_of_three b0 b1 && continuation b2 then 3 else
              match l3 with
              | [] => 0
              | b3 :: _ =>
                  if second_of_four b0 b1 && continuation b2 && continuation b3
                  then 4 else 0
              end
          end
      end
  end.

(** The characters of the decoded [str]: [None] for a character that has
    an encoding, [Some b] for the surrogate that stands for byte [b]. *)
Fixpoint surrogateescape (fuel : nat) (l : list N) : list (option N) :=
  match fuel, l with
  | S fuel', b :: l' =>
      match utf8_sequence_length l with
      | O => Some b :: surrogateescape fuel' l'
      | S n => None :: surrogateescape fuel' (drop n l')
      end
  | _, _ => []
  end.

Definition decoded (s : string) : list (option N) :=
  let l := List.map N_of_ascii (list_ascii_of_string s) in
  surrogateescape (List.length l) l.

(** The first run of surrogates: its position, its length and its first byte. *)
Fixpoint run_length (cs : list (option N)) : nat :=
  match cs with
  | Some _ :: cs' => S (run_length cs')
  | _ => 0
  end.

Fixpoint first_surrogates (pos : nat) (cs : list (option N)) : option (nat * nat * N) :=
  match cs with
  | [] => None
  | None :: cs' => first_surrogates (S pos) cs'
  | Some b :: cs' => Some (pos, S (run_length cs'), b)
  end.

(** [str(e)] of the [UnicodeEncodeError]. *)
Definition surrogates_message (pos len : nat) (b : N) : string :=
  match len with
  | 1 =>
      "'utf-8' codec can't encode character '\udc"
      +:+ String (SHA256.hexdigit (Z.of_N (b / 16))) (String (SHA256.hexdigit (Z.of_N (b mod 16))) "")
      +:+ "' in position " +:+ pretty pos +:+ ": surrogates not allowed"
  | _ =>
      "'utf-8' codec can't encode characters in position "
      +:+ pretty pos +:+ "-" +:+ pretty (pos + len - 1) +:+ ": surrogates not allowed"
  end.

(** [s.encode()] for a [str] [s] that came from the environment. *)
Definition encode_str (s : string) : result string :=
  match first_surrogates 0 (decoded s) with
  | None => Ok s
  | Some (pos, len, b) => Raise (ValueError (surrogates_message pos len b))
  end.

Definition utf8_wellformed (s : string) : bool :=
  match encode_str s with Ok _ => true | Raise _ => false end.

(** ** The program *)

Section Gateway.
Context {Ext : Type} `{External Ext}.

(** *** The monad: state, exceptions and the log of events *)

Definition M (A : Type) : Type := world Ext -> result A * world Ext * list event.

Definition ret {A} (a : A) : M A := fun w => (Ok a, w, []).

Definition bind {A B} (m : M A) (f : A -> M B) : M B :=
  fun w =>
    match m w with
    | (Ok a, w', l) => let '(r, w'', l') := f a w' in (r, w'', l ++ l')
    | (Raise e, w', l) => (Raise e, w', l)
    end.

Definition raise {A} (e : exn) : M A := fun w => (Raise e, w, []).

(** [try: m  except Exception as e: h e]. *)
Definition try_except {A} (m : M A) (h : exn -> M A) : M A :=
  fun w =>
    match m w with
    | (Ok a, w', l) => (Ok a, w', l)
    | (Raise e, w', l) => let '(r, w'', l') := h e w' in (r, w'', l ++ l')
    end.

Definition emit (ev : event) : M unit := fun w => (Ok tt, w, [ev]).

Definition gets {A} (f : world Ext -> A) : M A := fun w => (Ok (f w), w, []).

Definition modify (f : world Ext -> world Ext) : M unit := fun w => (Ok tt, f w, []).

(** A library call: it acts on the outside world only. *)
Definition call {A} (f : Ext -> result A * Ext) : M A :=
  fun w =>
    let '(r, x) := f (ext w) in
    (r, World (workspace_apps w) (next_handle w) (environ w) x, []).

Notation "x <- m ;; k" := (bind m (fun x => k))
  (at level 100, m at next level, right associativity).
Notation "m ;;; k" := (bind m (fun _ => k))
  (at level 100, right associativity).


(** [random.random()], as the numerator of a 53-bit fraction. *)
Definition py_random : M N :=
  call (fun x => let '(p, x') := random x in (Ok (p mod 2 ^ 53)%N, x')).

(** [random.choices(population, k=k)]: [k] times
    [population[floor(random() * len(population))]]. *)
Fixpoint choices (population : string) (k : nat) : M (list ascii) :=
  match k with
  | O => ret []
  | S k' =>
      p <- py_random ;;
      let i := N.to_nat (p * N.of_nat (String.length population) / 2 ^ 53)%N in
      match String.get i population with
      | Some c => rest <- choices population k' ;; ret (c :: rest)
      | None => raise (IndexError "list index out of range")
      end
  end.

Definition generate_workspace_id : M string :=
  cs <- choices (ascii_letters +:+ digits) 12 ;;
  ret (string_of_list_ascii cs).

(** [EmbedChainApp.from_config(config_path=...)]: the constructor runs in
    the outside world and may raise; when it returns, the result is a new
    object, distinct from every object allocated before. *)
Definition from_config (config_path : string) : M handle :=
  call (app_from_config config_path) ;;;
  fun w =>
    let h := next_handle w in
    (Ok h, World (workspace_apps w) (S h) (environ w) (ext w), [FromConfig config_path h]).

Definition get_workspace_app (workspace_id : string) : M handle :=
  emit (Resolve workspace_id) ;;;
  present <- gets (fun w => bool_decide (is_Some (workspace_apps w !! workspace_id))) ;;
  (if negb present then
     h <- from_config "config.yaml" ;;
     modify (fun w => World (<[workspace_id := h]> (workspace_apps w))
                            (next_handle w) (environ w) (ext w))
   else ret tt) ;;;
  entry <- gets (fun w => workspace_apps w !! workspace_id) ;;
  match entry with
  | Some h => ret h
  | None => raise (KeyError workspace_id)
  end.

(** [os.getenv(name)]: [None], or the [str] decoded from the variable,
    held as the bytes of the variable. *)
Definition getenv (name : string) : M (option string) :=
  gets (fun w => environ w !! name).

(** [secret_key.encode()]; [None] has no such method. *)
Definition encode (secret_key : option string) : M string :=
  match secret_key with
  | Some s =>
      match encode_str s with
      | Ok bytes => ret bytes
      | Raise e => raise e
      end
  | None => raise (AttributeError "'NoneType' object has no attribute 'encode'")
  end.

(** [hmac.compare_digest] on two [str]: both must be ASCII. *)
Definition compare_digest (a b : string) : M bool :=
  if is_ascii a && is_ascii b then ret (String.eqb a b)
  else raise (TypeError "comparing strings with non-ASCII characters is not supported").

Definition verify_hmac_signature (request : Request) (secret_key : option string) : M unit :=
  emit SignatureCheck ;;;
  let signature := headers request !! "X-Signature"%string in
  if negb (truthy_opt signature) then
    raise (HTTPException 403 "Signature missing")
  else
    key <- encode secret_key ;;
    let computed_signature := SHA256.hmac_hexdigest key (body request) in
    same <- compare_digest computed_signature (default EmptyString signature) ;;
    if negb same then raise (HTTPException 403 "Invalid signature")
    else ret tt.

(** The engine's methods, each logged with its arguments. *)
Definition search (h : handle) (q : string) (n : nat) (md : gmap string string)
  : M (list value) :=
  emit (EngineCall h (Search q n md)) ;;; call (app_search h q n md).

Definition add (h : handle) (s : source) (dt : string) (md : gmap string string) : M value :=
  emit (EngineCall h (Add s dt md)) ;;; call (app_add h s dt md).

Definition app_list (h : handle) (md : gmap string string) : M value :=
  emit (EngineCall h (ListData md)) ;;; call (app_list_data h md).

Definition app_delete (h : handle) (f : string) (md : gmap string string) : M value :=
  emit (EngineCall h (DeleteData f md)) ;;; call (app_delete_data h f md).

Definition create_workspace (request : WorkspaceCreateRequest) : M value :=
  workspace_id <- generate_workspace_id ;;
  let row := [("workspace_id"%string, VStr workspace_id);
              ("workspace_name"%string, VStr (wc_workspace_name request))] in
  emit (BackendInsert "workspaces" row) ;;;
  call (supabase_insert (wc_supabase_url request) (wc_supabase_key request)
                        "workspaces" row) ;;;
  ret (VDict [("workspace_id"%string, VStr workspace_id);
              ("workspace_name"%string, VStr (wc_workspace_name request))]).

Definition get_data (request : QuestionRequest) (req : Request) : M value :=
  secret <- getenv "HMAC_SECRET" ;;
  verify_hmac_signature req secret ;;;
  let question := qr_question request in
  let workspace_id := qr_workspace_id request in
  app_instance <- get_workspace_app workspace_id ;;
  try_except
    (answer <- search app_instance question 5 (workspace_filter workspace_id) ;;
     answer <- (if Nat.eqb (List.length answer) 0
                then search app_instance question 5 (workspace_filter workspace_id)
                else ret answer) ;;
     ret (VList answer))
    (fun e => raise (HTTPException 500 (str e))).

Definition train (request : TrainRequest) (req : Request) : M value :=
  secret <- getenv "HMAC_SECRET" ;;
  verify_hmac_signature req secret ;;;
  let file_url := tr_file_url request in
  let data_type := tr_data_type request in
  let workspace_id := tr_workspace_id request in
  app_instance <- get_workspace_app workspace_id ;;
  if negb (truthy file_url) || negb (truthy data_type) then
    raise (HTTPException 400 "Both 'file_url' and 'data_type' are required")
  else
    try_except
      (add app_instance (SourceStr file_url) data_type (workspace_filter workspace_id) ;;;
       ret (VDict [("status"%string, VStr "Training data added successfully")]))
      (fun e => raise (HTTPException 500 (str e))).

Definition train_qna (request : QnARequest) (req : Request) : M value :=
  secret <- getenv "HMAC_SECRET" ;;
  verify_hmac_signature req secret ;;;
  let question := qa_question request in
  let answer := qa_answer request in
  let data_type := qa_data_type request in
  let workspace_id := qa_workspace_id request in
  app_instance <- get_workspace_app workspace_id ;;
  try_except
    (add app_instance (SourcePair question answer) data_type
         (workspace_filter workspace_id) ;;;
     ret (VDict [("status"%string, VStr "Q&A pair added successfully")]))
    (fun e =>
       if is_ValueError e then raise (HTTPException 422 (str e))
       else raise (HTTPException 500 (str e))).

Definition list_data (workspace_id : string) (req : Request) : M value :=
  secret <- getenv "HMAC_SECRET" ;;
  verify_hmac_signature req secret ;;;
  app_instance <- get_workspace_app workspace_id ;;
  try_except
    (data_list <- app_list app_instance (workspace_filter workspace_id) ;;
     ret (VDict [("data"%string, data_list)]))
    (fun e => raise (HTTPException 500 (str e))).

Definition delete_data (workspace_id file_name supabase_url supabase_key : string)
    (req : Request) : M value :=
  secret <- getenv "HMAC_SECRET" ;;
  verify_hmac_signature req secret ;;;
  app_instance <- get_workspace_app workspace_id ;;
  try_except
    (app_delete app_instance file_name (workspace_filter workspace_id) ;;;
     ret (VDict [("status"%string,
                  VStr ("Data " +:+ file_name +:+ " deleted successfully"))]))
    (fun e => raise (HTTPException 500 (str e))).

(** [os.environ[name] = value]: the value must be a [str]. *)
Definition setenv (name : string) (v : option string) : M unit :=
  match v with
  | Some s =>
      modify (fun w => World (workspace_apps w) (next_handle w)
                             (<[name := s]> (environ w)) (ext w))
  | None => raise (TypeError "str expected, not NoneType")
  end.

(** The module's assignments to [os.environ], run once at import, after
    [load_dotenv()] has filled the environment. *)
Definition set_environment_variables : M unit :=
  v <- getenv "TOGETHER_API_KEY" ;; setenv "TOGETHER_API_KEY" v ;;;
  v <- getenv "ZILLIZ_CLOUD_URI" ;; setenv "ZILLIZ_CLOUD_URI" v ;;;
  v <- getenv "ZILLIZ_CLOUD_TOKEN" ;; setenv "ZILLIZ_CLOUD_TOKEN" v ;;;
  v <- getenv "PINECONE_API_KEY" ;; setenv "PINECONE_API_KEY" v ;;;
  setenv "TOKENIZERS_PARALLELISM" (Some "false"%string).

End Gateway.

(** ** Running a handler, and what the framework makes of the outcome *)

Definition outcome {Ext A} (m : M A) (w : world Ext) : result A := (m w).1.1.
Definition final {Ext A} (m : M A) (w : world Ext) : world Ext := (m w).1.2.
Definition events {Ext A} (m : M A) (w : world Ext) : list event := (m w).2.

Record Response := {
  status : nat;
  content : value
}.

(** FastAPI: a returned value is sent with 200, an [HTTPException] with
    its status code and detail, any other exception as a plain 500. *)
Definition respond (r : result value) : Response :=
  match r with
  | Ok v => {| status := 200; content := v |}
  | Raise (HTTPException code detail) =>
      {| status := code; content := VDict [("detail"%string, VStr detail)] |}
  | Raise _ => {| status := 500; content := VStr "Internal Server Error" |}
  end.

(** The routes. *)
Inductive api_request :=
| PostWorkspace (request : WorkspaceCreateRequest)
| PostData (request : QuestionRequest) (req : Request)
| PostTrain (request : TrainRequest) (req : Request)
| PostTrainQna (request : QnARequest) (req : Request)
| GetDataList (workspace_id : string) (req : Request)
| DeleteDataDelete (workspace_id file_name supabase_url supabase_key : string)
                   (req : Request).

Definition handle_request `{External Ext} (a : api_request) : M (Ext:=Ext) value :=
  match a with
  | PostWorkspace request => create_workspace request
  | PostData request req => get_data request req
  | PostTrain request req => train request req
  | PostTrainQna request req => train_qna request req
  | GetDataList workspace_id req => list_data workspace_id req
  | DeleteDataDelete workspace_id file_name url key req =>
      delete_data workspace_id file_name url key req
  end.

(** The workspace a request names, the HTTP request it carries and the
    capability its handler uses; workspace creation has none of them. *)
Definition caller_workspace (a : api_request) : option string :=
  match a with
  | PostWorkspace _ => None
  | PostData request _ => Some (qr_workspace_id request)
  | PostTrain request _ => Some (tr_workspace_id request)
  | PostTrainQna request _ => Some (qa_workspace_id request)
  | GetDataList workspace_id _ => Some workspace_id
  | DeleteDataDelete workspace_id _ _ _ _ => Some workspace_id
  end.

Definition carried_request (a : api_request) : option Request :=
  match a with
  | PostWorkspace _ => None
  | PostData _ req | PostTrain _ req | PostTrainQna _ req
  | GetDataList _ req | DeleteDataDelete _ _ _ _ req => Some req
  end.

Definition handler_capability (a : api_request) : option capability :=
  match a with
  | PostWorkspace _ => None
  | PostData _ _ => Some CapSearch
  | PostTrain _ _ => Some CapAdd
  | PostTrainQna _ _ => Some CapAddPair
  | GetDataList _ _ => Some CapListData
  | DeleteDataDelete _ _ _ _ _ => Some CapDeleteData
  end.

(** What [verify_hmac_signature] decides, as a function of the header,
    the secret and the body. *)
Definition signature_verdict (signature secret_key : option string) (payload : string)
  : result unit :=
  if negb (truthy_opt signature) then Raise (HTTPException 403 "Signature missing")
  else match secret_key with
       | None => Raise (AttributeError "'NoneType' object has no attribute 'encode'")
       | Some secret =>
           match encode_str secret with
           | Raise e => Raise e
           | Ok key =>
               let computed := SHA256.hmac_hexdigest key payload in
               let supplied := default EmptyString signature in
               if is_ascii computed && is_ascii supplied then
                 if String.eqb computed supplied then Ok tt
                 else Raise (HTTPException 403 "Invalid signature")
               else Raise (TypeError
                             "comparing strings with non-ASCII characters is not supported")
           end
       end.

(** A request passes authentication in a world. *)
Definition authenticated {Ext} (w : world Ext) (req : Request) : Prop :=
  signature_verdict (headers req !! "X-Signature"%string)
                    (environ w !! "HMAC_SECRET"%string) (body req) = Ok tt.

(** The engine calls among the events of a run. *)
Fixpoint engine_calls (evs : list event) : list (handle * engine_call) :=
  match evs with
  | [] => []
  | EngineCall h c :: evs' => (h, c) :: engine_calls evs'
  | _ :: evs' => engine_calls evs'
  end.

Definition is_signature_check (ev : event) : bool :=
  match ev with SignatureCheck => true | _ => false end.

(** [sub] occurs in [s]. *)
Definition contains (s sub : string) : Prop :=
  exists pre post, s = pre +:+ sub +:+ post.

(** The required fields of a request are present, as its handler tests it:
    only the ingestion handler tests any. *)
Definition validated (a : api_request) : bool :=
  match a with
  | PostTrain request _ => truthy (tr_file_url request) && truthy (tr_data_type request)
  | _ => true
  end.

(** A request that gets as far as the engine. *)
Definition admitted {Ext} (w : world Ext) (a : api_request) : Prop :=
  match carried_request a with
  | Some req => authenticated w req /\ validated a = true
  | None => False
  end.

(** The query handler's first search, run on the handle its workspace
    resolves to and in the outside world as the resolution left it,
    returns an empty list. *)
Definition first_search_empty `{External Ext} (w : world Ext) (a : api_request) : bool :=
  match a with
  | PostData request _ =>
      match outcome (get_workspace_app (qr_workspace_id request)) w with
      | Ok h =>
          match (app_search h (qr_question request) 5
                            (workspace_filter (qr_workspace_id request))
                            (ext (final (get_workspace_app (qr_workspace_id request)) w))).1
          with
          | Ok [] => true
          | _ => false
          end
      | Raise _ => false
      end
  | _ => false
  end.

(** ** The cache invariant and the worlds a server process reaches *)

(** Every cached handle has been allocated, and no two identifiers share one. *)
Definition cache_wf {Ext} (w : world Ext) : Prop :=
  (forall k h, workspace_apps w !! k = Some h -> h < next_handle w) /\
  (forall k1 k2 h, workspace_apps w !! k1 = Some h ->
                   workspace_apps w !! k2 = Some h -> k1 = k2).

(** The process starts with [workspace_apps = {}]. *)
Definition initial_world {Ext} (env : gmap string string) (x : Ext) : world Ext :=
  World ∅ 0 env x.

(** One request served. *)
Definition serves `{External Ext} (w w' : world Ext) : Prop :=
  exists a, w' = final (handle_request a) w.

Definition reachable `{External Ext} (w : world Ext) : Prop :=
  exists env x, rtc serves (initial_world env x) w.

(** The cache of [w'] extends that of [w]: entries are kept as they are. *)
Definition cache_extends {Ext} (w w' : world Ext) : Prop :=
  (cache_wf w -> cache_wf w') /\
  next_handle w <= next_handle w' /\
  environ w' = environ w /\
  (forall k h, workspace_apps w !! k = Some h -> workspace_apps w' !! k = Some h).

Definition extending `{External Ext} {A} (m : M (Ext:=Ext) A) : Prop :=
  forall w, cache_extends w (final m w).

(** ** A scripted outside world

    The libraries answer from lists prepared in advance, one answer per
    call; an exhausted list answers with a default. *)

Record script := Script {
  draws : list N;
  searches : list (result (list value));
  adds : list (result value);
  listings : list (result value);
  deletions : list (result value);
  inserts : list (result value);
  constructions : list (result unit)
}.

#[export] Instance scripted : External script := {
  random s :=
    (hd 0%N (draws s),
     Script (tl (draws s)) (searches s) (adds s) (listings s) (deletions s) (inserts s) (constructions s));
  app_from_config _ s :=
    (hd (Ok tt) (constructions s),
     Script (draws s) (searches s) (adds s) (listings s) (deletions s) (inserts s)
            (tl (constructions s)));
  app_search _ _ _ _ s :=
    (hd (Ok []) (searches s),
     Script (draws s) (tl (searches s)) (adds s) (listings s) (deletions s) (inserts s) (constructions s));
  app_add _ _ _ _ s :=
    (hd (Ok VNone) (adds s),
     Script (draws s) (searches s) (tl (adds s)) (listings s) (deletions s) (inserts s) (constructions s));
  app_list_data _ _ s :=
    (hd (Ok (VList [])) (listings s),
     Script (draws s) (searches s) (adds s) (tl (listings s)) (deletions s) (inserts s) (constructions s));
  app_delete_data _ _ _ s :=
    (hd (Ok VNone) (deletions s),
     Script (draws s) (searches s) (adds s) (listings s) (tl (deletions s)) (inserts s) (constructions s));
  supabase_insert _ _ _ _ s :=
    (hd (Ok VNone) (inserts s),
     Script (draws s) (searches s) (adds s) (listings s) (deletions s) (tl (inserts s)) (constructions s))
}.

Definition quiet : script := Script [] [] [] [] [] [] [].

(** The engine finds nothing at first and one document when asked again. *)
Definition empty_then_found : script :=
  Script [] [Ok []; Ok [VStr "a document"]] [] [] [] [] [].

(** The engine refuses the pair it is given. *)
Definition refusing : script :=
  Script [] [] [Raise (ValueError "Invalid question-answer pair")] [] [] [] [].

Definition demo_secret : string := "topsecret".

Definition demo_env : gmap string string := {[ "HMAC_SECRET"%string := demo_secret ]}.

Definition demo_world (s : script) : world script := initial_world demo_env s.

(** A request signed by a client that holds [secret]. *)
Definition signed (secret payload : string) : Request :=
  {| headers := {[ "X-Signature"%string := SHA256.hmac_hexdigest secret payload ]};
     body := payload |}.

Definition unsigned (payload : string) : Request :=
  {| headers := ∅; body := payload |}.

(** A request whose signature header holds the single byte 0xE9. *)
Definition latin1_signed (payload : string) : Request :=
  {| headers := {[ "X-Signature"%string := String (ascii_of_nat 233) EmptyString ]};
     body := payload |}.

Definition demo_question : QuestionRequest :=
  {| qr_question := "what is rocq"; qr_session_id := "s1"; qr_workspace_id := "wsA";
     qr_supabase_url := "https://db.example"; qr_supabase_key := "k" |}.

Definition demo_train (file_url data_type : string) : TrainRequest :=
  {| tr_file_url := file_url; tr_data_type := data_type; tr_workspace_id := "wsA";
     tr_supabase_url := "https://db.example"; tr_supabase_key := "k" |}.

Definition demo_qna : QnARequest :=
  {| qa_question := "q"; qa_answer := "a"; qa_data_type := "qna_pair";
     qa_workspace_id := "wsA";
     qa_supabase_url := "https://db.example"; qa_supabase_key := "k" |}.

(** ** Further notions used below *)

(** The variables the module copies back into [os.environ] at import. *)
Definition copied_variables : list string :=
  [ "TOGETHER_API_KEY"; "ZILLIZ_CLOUD_URI"; "ZILLIZ_CLOUD_TOKEN"; "PINECONE_API_KEY" ]%string.

Definition all_set (env : gmap string string) (names : list string) : bool :=
  forallb (fun name => bool_decide (is_Some (env !! name))) names.

(** Two worlds with the same cache, allocator and environment. *)
Definition same_cache {Ext} (w w' : world Ext) : Prop :=
  workspace_apps w' = workspace_apps w /\
  next_handle w' = next_handle w /\
  environ w' = environ w.

(** As many objects have been allocated as identifiers are cached. *)
Definition cache_counted {Ext} (w : world Ext) : Prop :=
  size (workspace_apps w) = next_handle w.

(** Every object allocated so far is cached under some identifier. *)
Definition cache_onto {Ext} (w : world Ext) : Prop :=
  forall h, h < next_handle w -> exists k, workspace_apps w !! k = Some h.

(** The status codes each data route can answer with; workspace creation
    is not a data route. *)
Definition route_statuses (a : api_request) : list nat :=
  match a with
  | PostWorkspace _ => []
  | PostData _ _ => [200; 403; 500]
  | PostTrain _ _ => [200; 400; 403; 500]
  | PostTrainQna _ _ => [200; 403; 422; 500]
  | GetDataList _ _ => [200; 403; 500]
  | DeleteDataDelete _ _ _ _ _ => [200; 403; 500]
  end.

(** A process whose environment has no [HMAC_SECRET]. *)
Definition bare_world (s : script) : world script := initial_world ∅ s.

(** A process that has the four API variables and no [HMAC_SECRET]. *)
Definition api_env : gmap string string :=
  list_to_map (map (fun name => (name, "value"%string)) copied_variables).

Definition keyed_world (s : script) : world script := initial_world api_env s.

(** The engine is out of order: every first call raises. *)
Definition broken : script :=
  Script [] [Raise (Exception "index unavailable")]
            [Raise (ValueError "unsupported data type")]
            [Raise (Exception "index unavailable")]
            [Raise (Exception "no such file")] [] [].

(** The engine lists one file. *)
Definition listing : script :=
  Script [] [] [] [Ok (VList [VStr "report.pdf"])] [] [] [].

(** The configuration file is missing: the constructor raises, once. *)
Definition unconfigured : script :=
  Script [] [] [] [] [] [] [Raise (Exception "config.yaml not found")].

(** * Properties *)

(** ** Test vectors for the hash *)

Example sha256_empty :
  SHA256.sha256_hexdigest "" =
  "e3b0c44298fc1c149afbf4c8996fb92427ae41e4649b934ca495991b7852b855"%string.
Proof. vm_compute. reflexivity. Qed.

Example sha256_abc :
  SHA256.sha256_hexdigest "abc" =
  "ba7816bf8f01cfea414140de5dae2223b00361a396177a9cb410ff61f20015ad"%string.
Proof. vm_compute. reflexivity. Qed.

Example sha256_two_blocks :
  SHA256.sha256_hexdigest "abcdbcdecdefdefgefghfghighijhijkijkljklmklmnlmnomnopnopq" =
  "248d6a61d20638b8e5c026930c3e6039a33ce45964ff2167f6ecedd419db06c1"%string.
Proof. vm_compute. reflexivity. Qed.

Example hmac_quick_brown_fox :
  SHA256.hmac_hexdigest "key" "The quick brown fox jumps over the lazy dog" =
  "f7bc83f430538424b13298e6aa6fb143ef4d59a14946175997479dbc2d1a3cd8"%string.
Proof. vm_compute. reflexivity. Qed.

Example round_constants :
  List.length SHA256.K = 64%nat /\
  List.hd 0%Z SHA256.K = 0x428a2f98%Z /\ List.last SHA256.K 0%Z = 0xc67178f2%Z.
Proof. repeat split. Qed.

(** ** The digest is printable *)

Lemma hexdigit_ascii n : is_ascii_char (SHA256.hexdigit n) = true.
Proof.
  unfold SHA256.hexdigit. generalize (Z.to_nat n). intros k.
  do 16 (destruct k as [|k]; [reflexivity|]). destruct k; reflexivity.
Qed.

Lemma is_ascii_app a b : is_ascii (a +:+ b) = is_ascii a && is_ascii b.
Proof.
  induction a as [|c a IH]; simpl; [reflexivity|].
  rewrite IH. apply andb_assoc.
Qed.

Lemma hex_word_ascii w : is_ascii (SHA256.hex_word w) = true.
Proof. unfold SHA256.hex_word. cbn [is_ascii]. rewrite !hexdigit_ascii. reflexivity. Qed.

Lemma hexdigest_ascii key payload : is_ascii (SHA256.hmac_hexdigest key payload) = true.
Proof.
  unfold SHA256.hmac_hexdigest, SHA256.hex_of_hstate.
  rewrite !is_ascii_app, !hex_word_ascii. reflexivity.
Qed.

Lemma hexdigest_length key payload :
  String.length (SHA256.hmac_hexdigest key payload) = 64.
Proof. reflexivity. Qed.

Lemma hexdigest_truthy key payload : truthy (SHA256.hmac_hexdigest key payload) = true.
Proof. reflexivity. Qed.

(** From here on the hash is computed only where a proof asks for it. *)
#[global] Opaque SHA256.hmac_hexdigest.

(** ** What the helper functions compute *)

Section Runs.
Context {Ext : Type} `{External Ext}.
Implicit Types (w : world Ext) (k : string).

Lemma world_eta w :
  World (workspace_apps w) (next_handle w) (environ w) (ext w) = w.
Proof. destruct w; reflexivity. Qed.

Lemma verify_hmac_signature_run (req : Request) secret w :
  verify_hmac_signature req secret w =
  (signature_verdict (headers req !! "X-Signature"%string) secret (body req),
   w, [SignatureCheck]).
Proof.
  unfold verify_hmac_signature, signature_verdict, bind, emit, encode, compare_digest.
  destruct (negb (truthy_opt _)); [reflexivity|].
  destruct secret as [secret|]; [|reflexivity].
  destruct (encode_str secret) as [key|e]; [|reflexivity]. cbn [ret].
  destruct (is_ascii _ && is_ascii _); [|reflexivity]. cbn [ret].
  destruct (String.eqb _ _); reflexivity.
Qed.

Lemma get_workspace_app_run k w :
  get_workspace_app k w =
  match workspace_apps w !! k with
  | Some h => (Ok h, w, [Resolve k])
  | None =>
      match app_from_config "config.yaml" (ext w) with
      | (Ok _, x) =>
          (Ok (next_handle w),
           World (<[k := next_handle w]> (workspace_apps w)) (S (next_handle w))
                 (environ w) x,
           [Resolve k; FromConfig "config.yaml" (next_handle w)])
      | (Raise e, x) =>
          (Raise e, World (workspace_apps w) (next_handle w) (environ w) x, [Resolve k])
      end
  end.
Proof.
  unfold get_workspace_app, from_config.
  unfold bind, emit, gets, modify, ret, raise, call.
  destruct (workspace_apps w !! k) as [h|] eqn:E; simpl.
  - rewrite E. reflexivity.
  - destruct (app_from_config _ _) as [[[]|e] x]; simpl; [|reflexivity].
    rewrite lookup_insert_eq. reflexivity.
Qed.

End Runs.

(** ** The cache only ever extends *)

Section Cache.
Context {Ext : Type} `{External Ext}.
Implicit Types (w : world Ext) (k : string).

Lemma cache_extends_refl w : cache_extends w w.
Proof. unfold cache_extends. auto. Qed.

Lemma cache_extends_trans w1 w2 w3 :
  cache_extends w1 w2 -> cache_extends w2 w3 -> cache_extends w1 w3.
Proof.
  intros (Hwf1 & Hn1 & He1 & Hk1) (Hwf2 & Hn2 & He2 & Hk2).
  unfold cache_extends.
  split; [auto | split; [lia | split; [congruence | auto]]].
Qed.

Lemma extending_ret {A} (a : A) : extending (ret a).
Proof. intros w. apply cache_extends_refl. Qed.

Lemma extending_raise {A} e : extending (raise (A:=A) e).
Proof. intros w. apply cache_extends_refl. Qed.

Lemma extending_emit ev : extending (emit ev).
Proof. intros w. apply cache_extends_refl. Qed.

Lemma extending_gets {A} (f : world Ext -> A) : extending (gets f).
Proof. intros w. apply cache_extends_refl. Qed.

Lemma extending_call {A} (f : Ext -> result A * Ext) : extending (call f).
Proof.
  intros w. unfold final, call. destruct (f (ext w)) as [r x]. cbn.
  unfold cache_extends, cache_wf. cbn. auto.
Qed.

Lemma extending_bind {A B} (m : M A) (f : A -> M B) :
  extending m -> (forall a, extending (f a)) -> extending (bind m f).
Proof.
  intros Hm Hf w. specialize (Hm w). unfold final, bind in *.
  destruct (m w) as [[[a|e] w'] l]; cbn in *; [|assumption].
  specialize (Hf a w'). unfold final in Hf.
  destruct (f a w') as [[r w''] l']; cbn in *.
  eapply cache_extends_trans; eassumption.
Qed.

Lemma extending_try_except {A} (m : M A) (h : exn -> M A) :
  extending m -> (forall e, extending (h e)) -> extending (try_except m h).
Proof.
  intros Hm Hh w. specialize (Hm w). unfold final, try_except in *.
  destruct (m w) as [[[a|e] w'] l]; cbn in *; [assumption|].
  specialize (Hh e w'). unfold final in Hh.
  destruct (h e w') as [[r w''] l']; cbn in *.
  eapply cache_extends_trans; eassumption.
Qed.

Lemma extending_get_workspace_app k : extending (get_workspace_app k).
Proof.
  intros w. unfold final. rewrite get_workspace_app_run.
  destruct (workspace_apps w !! k) as [h|] eqn:E; cbn.
  - apply cache_extends_refl.
  - destruct (app_from_config _ _) as [[[]|e] x]; cbn;
      [|unfold cache_extends, cache_wf; cbn; auto].
    unfold cache_extends, cache_wf; cbn. split; [|split; [lia|split; [reflexivity|]]].
    + intros [Hlt Hinj]. split.
      * intros k' h'. rewrite lookup_insert. case_decide; intros Hk'.
        -- injection Hk' as <-. lia.
        -- apply Hlt in Hk'. lia.
      * intros k1 k2 h'. rewrite !lookup_insert.
        repeat case_decide; intros Hk1 Hk2; subst; try reflexivity.
        -- injection Hk1 as <-. apply Hlt in Hk2. lia.
        -- injection Hk2 as <-. apply Hlt in Hk1. lia.
        -- eapply Hinj; eassumption.
    + intros k' h' Hk'. rewrite lookup_insert_ne; [assumption|]. congruence.
Qed.

Lemma extending_verify_hmac_signature (req : Request) secret :
  extending (verify_hmac_signature req secret).
Proof.
  intros w. unfold final. rewrite verify_hmac_signature_run. apply cache_extends_refl.
Qed.

Lemma extending_choices population n : extending (choices population n).
Proof.
  induction n as [|n IH]; cbn [choices].
  - apply extending_ret.
  - apply extending_bind; [apply extending_call|]. intros p.
    destruct (String.get _ population).
    + apply extending_bind; [exact IH|]. intros rest. apply extending_ret.
    + apply extending_raise.
Qed.

Ltac extending :=
  repeat first
    [ apply extending_ret | apply extending_raise | apply extending_emit
    | apply extending_gets | apply extending_call
    | apply extending_get_workspace_app | apply extending_verify_hmac_signature
    | apply extending_choices
    | apply extending_bind | apply extending_try_except
    | match goal with
      | |- forall _, _ => intro
      | |- extending (if ?b then _ else _) => destruct b
      end ].

Lemma extending_handle_request a : extending (handle_request a).
Proof.
  destruct a; cbn [handle_request];
    unfold create_workspace, generate_workspace_id, get_data, train, train_qna,
      list_data, delete_data, getenv, search, add, app_list, app_delete, py_random;
    extending.
Qed.

Lemma serves_extends w w' : serves w w' -> cache_extends w w'.
Proof. intros [a ->]. apply extending_handle_request. Qed.

Lemma rtc_serves_extends w w' : rtc serves w w' -> cache_extends w w'.
Proof.
  induction 1 as [|w1 w2 w3 Hs _ IH]; [apply cache_extends_refl|].
  eapply cache_extends_trans; [apply serves_extends|]; eassumption.
Qed.

Lemma initial_world_wf env (x : Ext) : cache_wf (initial_world env x).
Proof.
  split; cbn.
  - intros k h. rewrite lookup_empty. discriminate.
  - intros k1 k2 h. rewrite lookup_empty. discriminate.
Qed.

Lemma reachable_wf w : reachable w -> cache_wf w.
Proof.
  intros (env & x & Hrtc). apply rtc_serves_extends in Hrtc.
  apply Hrtc, initial_world_wf.
Qed.

End Cache.

(** ** The instance cache (claims C1 and C10) *)

Section CacheClaims.
Context {Ext : Type} `{External Ext}.
Implicit Types (w : world Ext) (k : string).

(** A resolution that returns gives the handle cached before the call, or
    else the newly allocated one, which is cached after the call. *)
Lemma get_workspace_app_returns k w h :
  outcome (get_workspace_app k) w = Ok h ->
  workspace_apps (final (get_workspace_app k) w) !! k = Some h /\
  (workspace_apps w !! k = Some h \/
   (workspace_apps w !! k = None /\ h = next_handle w)).
Proof.
  unfold outcome, final. rewrite get_workspace_app_run.
  destruct (workspace_apps w !! k) as [h'|] eqn:E; cbn.
  - intros [= ->]. auto.
  - destruct (app_from_config _ _) as [[[]|e] x]; cbn; [|discriminate].
    intros [= <-]. rewrite lookup_insert_eq. auto.
Qed.

(** A resolution raises only when the identifier is not cached and the
    constructor raises; the cache is then as it was. *)
Lemma get_workspace_app_raises k w e :
  outcome (get_workspace_app k) w = Raise e ->
  workspace_apps w !! k = None /\
  (app_from_config "config.yaml" (ext w)).1 = Raise e /\
  same_cache w (final (get_workspace_app k) w) /\
  events (get_workspace_app k) w = [Resolve k].
Proof.
  unfold outcome, final, events. rewrite get_workspace_app_run.
  destruct (workspace_apps w !! k) as [h'|] eqn:E; cbn; [discriminate|].
  destruct (app_from_config _ _) as [[[]|e'] x]; cbn; [discriminate|].
  intros [= ->]. repeat split.
Qed.

(** A cached identifier resolves without the constructor. *)
Lemma get_workspace_app_cached k w h :
  workspace_apps w !! k = Some h ->
  get_workspace_app k w = (Ok h, w, [Resolve k]).
Proof. intros E. rewrite get_workspace_app_run, E. reflexivity. Qed.

(** An absent identifier resolves when the constructor returns. *)
Lemma get_workspace_app_constructs k w :
  workspace_apps w !! k = None ->
  (app_from_config "config.yaml" (ext w)).1 = Ok tt ->
  outcome (get_workspace_app k) w = Ok (next_handle w).
Proof.
  intros E Hc. unfold outcome. rewrite get_workspace_app_run, E.
  destruct (app_from_config _ _) as [[[]|e] x]; [reflexivity|discriminate].
Qed.

(** C1: in a world the server has reached, let a resolution of [k1]
    return [h1].  After any number of further requests a resolution of the
    same identifier returns [h1] again, and a resolution of another
    identifier, when it returns, returns a handle other than [h1]. *)
Theorem C1_resolution_same_id_same_handle_distinct_ids_distinct_handles
    w w1 k1 k2 h1 :
  reachable w ->
  outcome (get_workspace_app k1) w = Ok h1 ->
  rtc serves (final (get_workspace_app k1) w) w1 ->
  (k1 = k2 -> outcome (get_workspace_app k2) w1 = Ok h1) /\
  (k1 <> k2 -> forall h2, outcome (get_workspace_app k2) w1 = Ok h2 -> h1 <> h2).
Proof.
  intros Hr Ho1 Hrtc. apply reachable_wf in Hr.
  destruct (get_workspace_app_returns k1 w h1 Ho1) as (Hin1 & _).
  pose proof (extending_get_workspace_app k1 w) as (Hwf0 & _).
  apply rtc_serves_extends in Hrtc. destruct Hrtc as (Hwf1 & _ & _ & Hkeep).
  specialize (Hwf1 (Hwf0 Hr)). apply Hkeep in Hin1.
  destruct Hwf1 as [Hlt Hinj]. split.
  - intros <-. unfold outcome. rewrite (get_workspace_app_cached _ _ _ Hin1). reflexivity.
  - intros Hne h2 Ho2 ->.
    destruct (get_workspace_app_returns k2 w1 h2 Ho2) as (_ & [Hs|[_ ->]]).
    + apply Hne. eapply Hinj; eassumption.
    + apply Hlt in Hin1. lia.
Qed.

(** C10: resolving [k] leaves the entry of every other identifier as it
    was, keeps an entry [k] already has, removes nothing and leaves the
    environment alone.  When it returns, [k] is cached whatever string it
    is: the cached identifiers are those cached before together with [k],
    and an absent [k] has been given the next object allocated.  When it
    raises, which it does only for an absent [k] whose constructor raised,
    the cache is as it was. *)
Theorem C10_resolution_only_adds_its_own_entry k w :
  (forall k', k' <> k ->
     workspace_apps (final (get_workspace_app k) w) !! k' = workspace_apps w !! k') /\
  (forall h, workspace_apps w !! k = Some h ->
     workspace_apps (final (get_workspace_app k) w) !! k = Some h /\
     outcome (get_workspace_app k) w = Ok h) /\
  dom (workspace_apps w) ⊆ dom (workspace_apps (final (get_workspace_app k) w)) /\
  (forall h, outcome (get_workspace_app k) w = Ok h ->
     workspace_apps (final (get_workspace_app k) w) !! k = Some h /\
     dom (workspace_apps (final (get_workspace_app k) w)) = {[ k ]} ∪ dom (workspace_apps w) /\
     (workspace_apps w !! k = None ->
      h = next_handle w /\
      workspace_apps (final (get_workspace_app k) w) =
        <[k := next_handle w]> (workspace_apps w))) /\
  (forall e, outcome (get_workspace_app k) w = Raise e ->
     workspace_apps w !! k = None /\
     workspace_apps (final (get_workspace_app k) w) = workspace_apps w) /\
  (workspace_apps w !! k = None ->
   (app_from_config "config.yaml" (ext w)).1 = Ok tt ->
   outcome (get_workspace_app k) w = Ok (next_handle w)) /\
  environ (final (get_workspace_app k) w) = environ w.
Proof.
  split; [|split; [|split; [|split; [|split; [|split]]]]].
  - intros k' Hk'. unfold final. rewrite get_workspace_app_run.
    destruct (workspace_apps w !! k); [reflexivity|].
    destruct (app_from_config _ _) as [[[]|e] x]; cbn; [|reflexivity].
    apply lookup_insert_ne. congruence.
  - intros h Hh. unfold final, outcome.
    rewrite (get_workspace_app_cached _ _ _ Hh). auto.
  - intros k'. rewrite !elem_of_dom. intros [h Hh].
    pose proof (extending_get_workspace_app k w) as (_ & _ & _ & Hkeep). eauto.
  - intros h Ho. destruct (get_workspace_app_returns k w h Ho) as (Hin & Hwas).
    split; [exact Hin|].
    revert Ho Hin. unfold outcome, final. rewrite get_workspace_app_run.
    destruct (workspace_apps w !! k) as [h'|] eqn:E; cbn.
    + intros _ _. split; [|discriminate].
      apply set_eq. intros k'. rewrite elem_of_union, elem_of_singleton, !elem_of_dom.
      split; [auto|]. intros [->|Hk']; [rewrite E; eauto | assumption].
    + destruct (app_from_config _ _) as [[[]|e] x]; cbn; [|discriminate].
      intros [= <-] _. split; [apply dom_insert_L|]. auto.
  - intros e He. destruct (get_workspace_app_raises k w e He) as (Hn & _ & (Hs & _) & _).
    auto.
  - apply get_workspace_app_constructs.
  - pose proof (extending_get_workspace_app k w) as (_ & _ & Henv & _). exact Henv.
Qed.

End CacheClaims.

(** ** Signature verification (claim C3) *)

Lemma demo_env_secret (s : script) :
  environ (demo_world s) !! "HMAC_SECRET"%string = Some demo_secret.
Proof. apply lookup_singleton_eq. Qed.

Section Signature.
Context {Ext : Type} `{External Ext}.
Implicit Types (w : world Ext) (req : Request).

(** [encode()] returns the bytes the [str] was decoded from, or raises a
    [ValueError]. *)
Lemma encode_str_returns s bytes : encode_str s = Ok bytes -> bytes = s.
Proof.
  unfold encode_str. destruct (first_surrogates 0 (decoded s)) as [[[pos len] b]|];
    [discriminate|]. intros [= <-]. reflexivity.
Qed.

Lemma encode_str_raises s e : encode_str s = Raise e -> is_ValueError e = true.
Proof.
  unfold encode_str. destruct (first_surrogates 0 (decoded s)) as [[[pos len] b]|];
    [|discriminate]. intros [= <-]. reflexivity.
Qed.

Lemma utf8_wellformed_encodes s : utf8_wellformed s = true <-> encode_str s = Ok s.
Proof.
  unfold utf8_wellformed. split.
  - destruct (encode_str s) as [bytes|e] eqn:E; [|discriminate].
    intros _. rewrite (encode_str_returns _ _ E). reflexivity.
  - intros ->. reflexivity.
Qed.

(** No header, or an empty one: 403, whatever the body and the secret. *)
Lemma verify_missing_signature req secret w :
  truthy_opt (headers req !! "X-Signature"%string) = false ->
  outcome (verify_hmac_signature req secret) w =
  Raise (HTTPException 403 "Signature missing").
Proof.
  intros Hs. unfold outcome. rewrite verify_hmac_signature_run. cbn [fst].
  unfold signature_verdict. rewrite Hs. reflexivity.
Qed.

(** The keyed hash of the body: verification returns normally. *)
Lemma verify_correct_signature req secret key w :
  encode_str secret = Ok key ->
  headers req !! "X-Signature"%string = Some (SHA256.hmac_hexdigest key (body req)) ->
  verify_hmac_signature req (Some secret) w = (Ok tt, w, [SignatureCheck]).
Proof.
  intros Hk Hs. rewrite verify_hmac_signature_run. unfold signature_verdict.
  rewrite Hs, Hk. cbn [truthy_opt default from_option id].
  rewrite hexdigest_truthy, hexdigest_ascii.
  cbn [negb andb]. rewrite String.eqb_refl. reflexivity.
Qed.

(** An ASCII value other than the keyed hash: 403. *)
Lemma verify_wrong_ascii_signature req secret key supplied w :
  encode_str secret = Ok key ->
  headers req !! "X-Signature"%string = Some supplied ->
  is_ascii supplied = true ->
  supplied <> SHA256.hmac_hexdigest key (body req) ->
  outcome (verify_hmac_signature req (Some secret)) w =
  Raise (match supplied with
         | EmptyString => HTTPException 403 "Signature missing"
         | String _ _ => HTTPException 403 "Invalid signature"
         end).
Proof.
  intros Hk Hs Hascii Hne. unfold outcome. rewrite verify_hmac_signature_run. cbn [fst].
  unfold signature_verdict. rewrite Hs. cbn [truthy_opt default from_option id].
  destruct supplied as [|c s]; [reflexivity|]. cbn [truthy negb].
  rewrite Hk, hexdigest_ascii, Hascii. cbn [andb].
  destruct (String.eqb_spec (SHA256.hmac_hexdigest key (body req)) (String c s)) as [E|E].
  - congruence.
  - reflexivity.
Qed.

(** Tampering: a signature made for another body, with another keyed
    hash, is refused with 403. *)
Lemma verify_signature_of_other_body req secret key other w :
  encode_str secret = Ok key ->
  headers req !! "X-Signature"%string = Some (SHA256.hmac_hexdigest key other) ->
  SHA256.hmac_hexdigest key other <> SHA256.hmac_hexdigest key (body req) ->
  outcome (verify_hmac_signature req (Some secret)) w =
  Raise (HTTPException 403 "Invalid signature").
Proof.
  intros Hk Hs Hne.
  rewrite (verify_wrong_ascii_signature req secret key _ w Hk Hs
             (hexdigest_ascii key other) Hne).
  destruct (SHA256.hmac_hexdigest key other) eqn:E; [|reflexivity].
  pose proof (hexdigest_truthy key other) as Ht. rewrite E in Ht. discriminate.
Qed.

(** A value with a byte above 127: [hmac.compare_digest] raises
    [TypeError], which is not an [HTTPException]. *)
Lemma verify_non_ascii_signature req secret key supplied w :
  encode_str secret = Ok key ->
  headers req !! "X-Signature"%string = Some supplied ->
  is_ascii supplied = false ->
  outcome (verify_hmac_signature req (Some secret)) w =
  Raise (TypeError "comparing strings with non-ASCII characters is not supported").
Proof.
  intros Hk Hs Hascii. unfold outcome. rewrite verify_hmac_signature_run. cbn [fst].
  unfold signature_verdict. rewrite Hs. cbn [truthy_opt default from_option id].
  destruct supplied as [|c s]; [discriminate|]. cbn [truthy negb].
  rewrite Hk, Hascii, andb_false_r. reflexivity.
Qed.

(** A secret that cannot be encoded: [UnicodeEncodeError], whatever the
    non-empty header. *)
Lemma verify_unencodable_secret req secret e w :
  encode_str secret = Raise e ->
  truthy_opt (headers req !! "X-Signature"%string) = true ->
  outcome (verify_hmac_signature req (Some secret)) w = Raise e.
Proof.
  intros Hk Hs. unfold outcome. rewrite verify_hmac_signature_run. cbn [fst].
  unfold signature_verdict. rewrite Hs, Hk. reflexivity.
Qed.

Lemma signed_authenticated w secret payload :
  environ w !! "HMAC_SECRET"%string = Some secret ->
  encode_str secret = Ok secret ->
  authenticated w (signed secret payload).
Proof.
  intros He Hk. unfold authenticated, signed, signature_verdict. cbn [headers body].
  rewrite He, lookup_singleton_eq, Hk. cbn [truthy_opt default from_option id].
  rewrite hexdigest_truthy, hexdigest_ascii. cbn [negb andb].
  rewrite String.eqb_refl. reflexivity.
Qed.

(** C3 (where the code departs from it): with the header value [0xE9],
    which differs from every keyed hash, verification never raises the
    403 error: it raises [TypeError] from [hmac.compare_digest] for every
    secret that can be encoded; the list handler then answers a plain
    500. *)
Theorem C3_non_ascii_signature_is_not_rejected_with_403 w key payload :
  headers (latin1_signed payload) !! "X-Signature"%string <>
    Some (SHA256.hmac_hexdigest key (body (latin1_signed payload))) /\
  (utf8_wellformed key = true ->
   outcome (verify_hmac_signature (latin1_signed payload) (Some key)) w =
     Raise (TypeError "comparing strings with non-ASCII characters is not supported")) /\
  (forall code detail,
     outcome (verify_hmac_signature (latin1_signed payload) (Some key)) w <>
     Raise (HTTPException code detail)) /\
  respond (outcome (list_data "wsA" (latin1_signed payload)) (demo_world quiet)) =
    {| status := 500; content := VStr "Internal Server Error" |}.
Proof.
  assert (Hlk : headers (latin1_signed payload) !! "X-Signature"%string =
                Some (String (ascii_of_nat 233) EmptyString))
    by apply lookup_singleton_eq.
  split; [|split; [|split]].
  - rewrite Hlk. intros E. apply (f_equal (from_option String.length 0)) in E.
    cbn [from_option] in E. rewrite hexdigest_length in E. discriminate.
  - intros Hk. apply utf8_wellformed_encodes in Hk.
    apply (verify_non_ascii_signature _ _ _ _ _ Hk Hlk). reflexivity.
  - intros code detail. destruct (encode_str key) as [bytes|e] eqn:Hk.
    + rewrite (verify_non_ascii_signature _ _ _ _ _ Hk Hlk eq_refl). discriminate.
    + rewrite (verify_unencodable_secret _ _ _ _ Hk); [|rewrite Hlk; reflexivity].
      apply encode_str_raises in Hk. intros [= ->]. discriminate.
  - unfold outcome, list_data, getenv, gets, bind.
    rewrite verify_hmac_signature_run. unfold signature_verdict.
    rewrite Hlk. cbn [truthy_opt default from_option id truthy negb].
    rewrite (demo_env_secret quiet).
    replace (encode_str demo_secret) with (Ok demo_secret) by reflexivity.
    replace (is_ascii (String (ascii_of_nat 233) EmptyString)) with false by reflexivity.
    rewrite andb_false_r. reflexivity.
Qed.

End Signature.

(** ** How a handler runs *)

Section Handlers.
Context {Ext : Type} `{External Ext}.
Implicit Types (w : world Ext) (req : Request) (k : string).

(** Every data handler opens with the signature check: a failed check
    ends the run, a passed one lets the rest of the handler run in the
    same world. *)
Lemma guarded_run {A} req (rest : M A) w :
  bind (getenv "HMAC_SECRET")
       (fun secret => bind (verify_hmac_signature req secret) (fun _ => rest)) w =
  match signature_verdict (headers req !! "X-Signature"%string)
                          (environ w !! "HMAC_SECRET"%string) (body req) with
  | Ok _ => let '(r, w', l) := rest w in (r, w', SignatureCheck :: l)
  | Raise e => (Raise e, w, [SignatureCheck])
  end.
Proof.
  unfold bind at 1 2. unfold getenv, gets.
  rewrite verify_hmac_signature_run.
  destruct (signature_verdict _ _ _); [|reflexivity].
  destruct (rest w) as [[r w'] l]. reflexivity.
Qed.

(** When the resolution returns, the rest of the handler runs with the handle
    it returned, in the world it left. *)
Lemma resolved_run {A} k (rest : handle -> M A) w h :
  outcome (get_workspace_app k) w = Ok h ->
  bind (get_workspace_app k) rest w =
  let '(r, w', l) := rest h (final (get_workspace_app k) w) in
  (r, w', events (get_workspace_app k) w ++ l).
Proof.
  unfold outcome, final, events, bind.
  destruct (get_workspace_app k w) as [[r0 w0] l0]. cbn. intros ->. reflexivity.
Qed.

Lemma get_workspace_app_calls k w : engine_calls (events (get_workspace_app k) w) = [].
Proof.
  unfold events. rewrite get_workspace_app_run.
  destruct (workspace_apps w !! k); [reflexivity|].
  destruct (app_from_config _ _) as [[[]|e] x]; reflexivity.
Qed.

Lemma get_workspace_app_first_event k w :
  exists rest, events (get_workspace_app k) w = Resolve k :: rest.
Proof.
  unfold events. rewrite get_workspace_app_run.
  destruct (workspace_apps w !! k); [eexists; reflexivity|].
  destruct (app_from_config _ _) as [[[]|e] x]; eexists; reflexivity.
Qed.

Lemma get_workspace_app_no_check k w :
  forallb (fun ev => negb (is_signature_check ev)) (events (get_workspace_app k) w) = true.
Proof.
  unfold events. rewrite get_workspace_app_run.
  destruct (workspace_apps w !! k); [reflexivity|].
  destruct (app_from_config _ _) as [[[]|e] x]; reflexivity.
Qed.

(** When the resolution raises, the exception escapes the handler. *)
Lemma unresolved_run {A} k (rest : handle -> M A) w e :
  outcome (get_workspace_app k) w = Raise e ->
  bind (get_workspace_app k) rest w =
  (Raise e, final (get_workspace_app k) w, events (get_workspace_app k) w).
Proof.
  unfold outcome, final, events, bind.
  destruct (get_workspace_app k w) as [[r0 w0] l0]. cbn. intros ->. reflexivity.
Qed.

Lemma engine_calls_app l1 l2 : engine_calls (l1 ++ l2) = engine_calls l1 ++ engine_calls l2.
Proof.
  induction l1 as [|ev l1 IH]; [reflexivity|].
  destruct ev; cbn; rewrite ?IH; reflexivity.
Qed.

(** The four engine methods, run in a world. *)
Lemma search_run h q n md w :
  search h q n md w =
  ((app_search h q n md (ext w)).1,
   World (workspace_apps w) (next_handle w) (environ w) (app_search h q n md (ext w)).2,
   [EngineCall h (Search q n md)]).
Proof.
  unfold search, bind, emit, call. destruct (app_search h q n md (ext w)). reflexivity.
Qed.

Lemma add_run h s dt md w :
  add h s dt md w =
  ((app_add h s dt md (ext w)).1,
   World (workspace_apps w) (next_handle w) (environ w) (app_add h s dt md (ext w)).2,
   [EngineCall h (Add s dt md)]).
Proof.
  unfold add, bind, emit, call. destruct (app_add h s dt md (ext w)). reflexivity.
Qed.

Lemma app_list_run h md w :
  app_list h md w =
  ((app_list_data h md (ext w)).1,
   World (workspace_apps w) (next_handle w) (environ w) (app_list_data h md (ext w)).2,
   [EngineCall h (ListData md)]).
Proof.
  unfold app_list, bind, emit, call. destruct (app_list_data h md (ext w)). reflexivity.
Qed.

Lemma app_delete_run h f md w :
  app_delete h f md w =
  ((app_delete_data h f md (ext w)).1,
   World (workspace_apps w) (next_handle w) (environ w) (app_delete_data h f md (ext w)).2,
   [EngineCall h (DeleteData f md)]).
Proof.
  unfold app_delete, bind, emit, call. destruct (app_delete_data h f md (ext w)).
  reflexivity.
Qed.

End Handlers.

(** ** The handlers (claims C2, C4, C5, C6, C8, C9) *)

Section HandlerClaims.
Context {Ext : Type} `{External Ext}.
Implicit Types (w : world Ext) (req : Request) (k : string).

(** C6: for a request that passes authentication, the response of the
    Q&A handler follows the outcome of the engine's [add]: 200 with the
    status message when it returns, 422 with the error's message when it
    raises [ValueError], 500 with [str] of the error when it raises
    anything else. *)
Theorem C6_train_qna_maps_ValueError_to_422_and_others_to_500
    (request : QnARequest) req w h :
  authenticated w req ->
  outcome (get_workspace_app (qa_workspace_id request)) w = Ok h ->
  respond (outcome (train_qna request req) w) =
  match (app_add h (SourcePair (qa_question request) (qa_answer request))
                 (qa_data_type request) (workspace_filter (qa_workspace_id request))
                 (ext (final (get_workspace_app (qa_workspace_id request)) w))).1 with
  | Ok _ =>
      {| status := 200;
         content := VDict [("status"%string, VStr "Q&A pair added successfully")] |}
  | Raise (ValueError msg) =>
      {| status := 422; content := VDict [("detail"%string, VStr msg)] |}
  | Raise e =>
      {| status := 500; content := VDict [("detail"%string, VStr (str e))] |}
  end.
Proof.
  intros Hauth Hres. unfold outcome at 1, train_qna.
  rewrite guarded_run, Hauth. cbv zeta.
  rewrite (resolved_run _ _ _ _ Hres). unfold try_except, bind.
  rewrite add_run.
  destruct (app_add _ _ _ _ _) as [[v|e] x]; cbn; [reflexivity|].
  destruct e; reflexivity.
Qed.

(** The events of each data handler, in order. *)
Lemma get_data_events (request : QuestionRequest) req w h :
  outcome (get_workspace_app (qr_workspace_id request)) w = Ok h ->
  let c := Search (qr_question request) 5 (workspace_filter (qr_workspace_id request)) in
  events (get_data request req) w =
  SignatureCheck ::
  match signature_verdict (headers req !! "X-Signature"%string)
                          (environ w !! "HMAC_SECRET"%string) (body req) with
  | Ok _ =>
      events (get_workspace_app (qr_workspace_id request)) w ++
      EngineCall h c ::
      (if first_search_empty w (PostData request req) then [EngineCall h c] else [])
  | Raise _ => []
  end.
Proof.
  intros Hres c. unfold events at 1, get_data, first_search_empty.
  rewrite guarded_run, Hres.
  destruct (signature_verdict _ _ _); [|reflexivity]. cbv zeta.
  rewrite (resolved_run _ _ _ _ Hres). unfold try_except, bind.
  rewrite search_run.
  destruct (app_search _ _ _ _ _) as [[[|v l]|e] x]; cbn [fst snd length Nat.eqb];
    [|reflexivity|reflexivity].
  rewrite search_run. cbn [ext].
  destruct (app_search _ _ _ _ x) as [[l'|e'] x']; reflexivity.
Qed.

Lemma train_events (request : TrainRequest) req w h :
  outcome (get_workspace_app (tr_workspace_id request)) w = Ok h ->
  events (train request req) w =
  SignatureCheck ::
  match signature_verdict (headers req !! "X-Signature"%string)
                          (environ w !! "HMAC_SECRET"%string) (body req) with
  | Ok _ =>
      events (get_workspace_app (tr_workspace_id request)) w ++
      (if validated (PostTrain request req)
       then [EngineCall h (Add (SourceStr (tr_file_url request)) (tr_data_type request)
                               (workspace_filter (tr_workspace_id request)))]
       else [])
  | Raise _ => []
  end.
Proof.
  intros Hres. unfold events at 1, train, validated.
  rewrite guarded_run.
  destruct (signature_verdict _ _ _); [|reflexivity]. cbv zeta.
  rewrite (resolved_run _ _ _ _ Hres).
  destruct (truthy (tr_file_url request)), (truthy (tr_data_type request));
    cbn [negb orb andb]; try reflexivity.
  unfold try_except, bind. rewrite add_run.
  destruct (app_add _ _ _ _ _) as [[v|e] x]; reflexivity.
Qed.

Lemma train_qna_events (request : QnARequest) req w h :
  outcome (get_workspace_app (qa_workspace_id request)) w = Ok h ->
  events (train_qna request req) w =
  SignatureCheck ::
  match signature_verdict (headers req !! "X-Signature"%string)
                          (environ w !! "HMAC_SECRET"%string) (body req) with
  | Ok _ =>
      events (get_workspace_app (qa_workspace_id request)) w ++
      [EngineCall h (Add (SourcePair (qa_question request) (qa_answer request))
                         (qa_data_type request)
                         (workspace_filter (qa_workspace_id request)))]
  | Raise _ => []
  end.
Proof.
  intros Hres. unfold events at 1, train_qna.
  rewrite guarded_run.
  destruct (signature_verdict _ _ _); [|reflexivity]. cbv zeta.
  rewrite (resolved_run _ _ _ _ Hres). unfold try_except, bind. rewrite add_run.
  destruct (app_add _ _ _ _ _) as [[v|e] x]; cbn; [reflexivity|].
  destruct (is_ValueError e); reflexivity.
Qed.

Lemma list_data_events k req w h :
  outcome (get_workspace_app k) w = Ok h ->
  events (list_data k req) w =
  SignatureCheck ::
  match signature_verdict (headers req !! "X-Signature"%string)
                          (environ w !! "HMAC_SECRET"%string) (body req) with
  | Ok _ => events (get_workspace_app k) w ++ [EngineCall h (ListData (workspace_filter k))]
  | Raise _ => []
  end.
Proof.
  intros Hres. unfold events at 1, list_data.
  rewrite guarded_run.
  destruct (signature_verdict _ _ _); [|reflexivity].
  rewrite (resolved_run _ _ _ _ Hres). unfold try_except, bind. rewrite app_list_run.
  destruct (app_list_data _ _ _) as [[v|e] x]; reflexivity.
Qed.

Lemma delete_data_events k file_name url key req w h :
  outcome (get_workspace_app k) w = Ok h ->
  events (delete_data k file_name url key req) w =
  SignatureCheck ::
  match signature_verdict (headers req !! "X-Signature"%string)
                          (environ w !! "HMAC_SECRET"%string) (body req) with
  | Ok _ =>
      events (get_workspace_app k) w ++
      [EngineCall h (DeleteData file_name (workspace_filter k))]
  | Raise _ => []
  end.
Proof.
  intros Hres. unfold events at 1, delete_data.
  rewrite guarded_run.
  destruct (signature_verdict _ _ _); [|reflexivity].
  rewrite (resolved_run _ _ _ _ Hres). unfold try_except, bind. rewrite app_delete_run.
  destruct (app_delete_data _ _ _ _) as [[v|e] x]; reflexivity.
Qed.

Lemma engine_calls_map h cs :
  engine_calls (map (EngineCall h) cs) = map (pair h) cs.
Proof. induction cs as [|c cs IH]; cbn; [|rewrite IH]; reflexivity. Qed.

Lemma no_check_map h cs :
  forallb (fun ev => negb (is_signature_check ev)) (map (EngineCall h) cs) = true.
Proof. induction cs as [|c cs IH]; cbn; [|rewrite IH]; reflexivity. Qed.

(** All five data handlers at once: the check, then, if it passes, the
    resolution and the engine calls [cs], each with the workspace filter
    and of the handler's capability. *)
Lemma handle_request_events a req k w h :
  carried_request a = Some req ->
  caller_workspace a = Some k ->
  outcome (get_workspace_app k) w = Ok h ->
  exists cs,
    events (handle_request a) w =
    SignatureCheck ::
    match signature_verdict (headers req !! "X-Signature"%string)
                            (environ w !! "HMAC_SECRET"%string) (body req) with
    | Ok _ => events (get_workspace_app k) w ++ map (EngineCall h) cs
    | Raise _ => []
    end /\
    Forall (fun c => call_metadata c = workspace_filter k /\
                     handler_capability a = Some (call_capability c)) cs /\
    length cs = (if validated a
                 then if first_search_empty w a then 2 else 1
                 else 0).
Proof.
  intros Hreq Hk Hres.
  destruct a as [request|request r|request r|request r|k' r|k' file_name url key r];
    cbn in Hreq, Hk; try discriminate;
    injection Hreq as ->; injection Hk as <-; cbn [handle_request validated].
  - rewrite (get_data_events _ _ _ _ Hres).
    set (c := Search (qr_question request) 5 (workspace_filter (qr_workspace_id request))).
    destruct (first_search_empty w (PostData request req));
      [exists [c; c] | exists [c]];
      (split; [reflexivity|]); (split; [|reflexivity]); repeat constructor.
  - rewrite (train_events _ _ _ _ Hres). cbn [validated first_search_empty].
    set (c := Add (SourceStr (tr_file_url request)) (tr_data_type request)
                  (workspace_filter (tr_workspace_id request))).
    destruct (truthy (tr_file_url request) && truthy (tr_data_type request));
      [exists [c] | exists []];
      (split; [reflexivity|]); (split; [|reflexivity]); repeat constructor.
  - rewrite (train_qna_events _ _ _ _ Hres).
    exists [Add (SourcePair (qa_question request) (qa_answer request))
                (qa_data_type request) (workspace_filter (qa_workspace_id request))].
    split; [reflexivity|]. split; [|reflexivity]. repeat constructor.
  - rewrite (list_data_events _ _ _ _ Hres). exists [ListData (workspace_filter k')].
    split; [reflexivity|]. split; [|reflexivity]. repeat constructor.
  - rewrite (delete_data_events _ _ _ _ _ _ _ Hres).
    exists [DeleteData file_name (workspace_filter k')].
    split; [reflexivity|]. split; [|reflexivity]. repeat constructor.
Qed.

(** A request that fails the check is answered with the check's
    exception, in an unchanged world. *)
Lemma handle_request_rejected a req w e :
  carried_request a = Some req ->
  signature_verdict (headers req !! "X-Signature"%string)
                    (environ w !! "HMAC_SECRET"%string) (body req) = Raise e ->
  handle_request a w = (Raise e, w, [SignatureCheck]).
Proof.
  intros Hreq Hv.
  destruct a; cbn in Hreq; try discriminate; injection Hreq as ->;
    cbn [handle_request];
    unfold get_data, train, train_qna, list_data, delete_data;
    rewrite guarded_run, Hv; reflexivity.
Qed.

(** An authenticated request whose resolution raises is answered with
    that exception, after the check and the resolution only. *)
Lemma handle_request_unresolved a req k w e :
  carried_request a = Some req ->
  caller_workspace a = Some k ->
  authenticated w req ->
  outcome (get_workspace_app k) w = Raise e ->
  handle_request a w =
  (Raise e, final (get_workspace_app k) w,
   SignatureCheck :: events (get_workspace_app k) w).
Proof.
  intros Hreq Hk Hauth He.
  destruct a as [request|request r|request r|request r|k' r|k' file_name url key r];
    cbn in Hreq, Hk; try discriminate;
    injection Hreq as ->; injection Hk as <-; cbn [handle_request];
    unfold get_data, train, train_qna, list_data, delete_data;
    rewrite guarded_run, Hauth; cbv zeta;
    rewrite (unresolved_run _ _ _ _ He); reflexivity.
Qed.

Lemma not_authenticated_raises w req :
  ~ authenticated w req ->
  exists e, signature_verdict (headers req !! "X-Signature"%string)
                              (environ w !! "HMAC_SECRET"%string) (body req) = Raise e.
Proof.
  unfold authenticated. intros Hn.
  destruct (signature_verdict _ _ _) as [[]|e]; [contradiction|]. eauto.
Qed.

Lemma choices_events population n w : events (choices population n) w = [].
Proof.
  revert w. induction n as [|n IH]; intros w; [reflexivity|].
  unfold events in *. cbn [choices]. unfold bind, py_random, call.
  destruct (random (ext w)) as [p x].
  destruct (String.get _ population); [|reflexivity].
  match goal with |- context [choices population n ?w0] =>
    specialize (IH w0); destruct (choices population n w0) as [[[cs|e] w1] l] end;
    cbn in *; subst; reflexivity.
Qed.

Lemma create_workspace_no_check request w :
  forallb (fun ev => negb (is_signature_check ev)) (events (create_workspace request) w)
  = true.
Proof.
  unfold events, create_workspace, generate_workspace_id, bind.
  pose proof (choices_events (ascii_letters +:+ digits) 12 w) as Hc.
  unfold events in Hc.
  destruct (choices _ 12 w) as [[[cs|e] w1] l]; cbn in Hc; subst; [|reflexivity].
  unfold ret, emit, call. cbn.
  destruct (supabase_insert _ _ _ _ _) as [[v|e] x]; reflexivity.
Qed.

(** C4: every data handler starts with the signature check and runs it
    once; the resolution and the engine calls come after it, and only
    when it passed: a request that fails it leaves the world as it was
    and logs nothing else.  Workspace creation never runs the check. *)
Theorem C4_signature_check_precedes_resolution_and_engine a w :
  match carried_request a with
  | Some req =>
      exists rest,
        events (handle_request a) w = SignatureCheck :: rest /\
        forallb (fun ev => negb (is_signature_check ev)) rest = true /\
        (~ authenticated w req ->
         rest = [] /\ final (handle_request a) w = w /\
         exists e, outcome (handle_request a) w = Raise e)
  | None =>
      forallb (fun ev => negb (is_signature_check ev)) (events (handle_request a) w) = true
  end.
Proof.
  destruct (carried_request a) as [req|] eqn:Hreq.
  - assert (exists k, caller_workspace a = Some k) as [k Hk]
      by (destruct a; cbn in Hreq |- *; try discriminate; eauto).
    destruct (signature_verdict (headers req !! "X-Signature"%string)
                (environ w !! "HMAC_SECRET"%string) (body req)) as [[]|e] eqn:Hv.
    + assert (Hauth : authenticated w req) by exact Hv.
      destruct (outcome (get_workspace_app k) w) as [h|e] eqn:Hres.
      * destruct (handle_request_events a req k w h Hreq Hk Hres) as (cs & Hev & _).
        rewrite Hv in Hev. eexists. split; [exact Hev|]. split; [|contradiction].
        rewrite forallb_app, get_workspace_app_no_check, no_check_map. reflexivity.
      * unfold events at 1. rewrite (handle_request_unresolved a req k w e Hreq Hk Hauth Hres).
        eexists. split; [reflexivity|]. split; [|contradiction].
        apply get_workspace_app_no_check.
    + unfold events, final, outcome. rewrite (handle_request_rejected a req w e Hreq Hv).
      exists []. repeat split. eauto.
  - destruct a; cbn in Hreq; try discriminate. apply create_workspace_no_check.
Qed.

(** C5: for a request that passes authentication, when the first search
    returns a list, the query handler returns it if it is not empty, after
    that one call; if it is empty the handler calls [search] a second
    time on the same handle with the same question, document count and
    filter, and answers with what the second call gives. *)
Theorem C5_get_data_retries_an_empty_search_exactly_once
    (request : QuestionRequest) req w h first x1 :
  authenticated w req ->
  outcome (get_workspace_app (qr_workspace_id request)) w = Ok h ->
  app_search h (qr_question request) 5 (workspace_filter (qr_workspace_id request))
             (ext (final (get_workspace_app (qr_workspace_id request)) w)) = (Ok first, x1) ->
  (first = [] ->
   outcome (get_data request req) w =
     match (app_search h (qr_question request) 5
                       (workspace_filter (qr_workspace_id request)) x1).1 with
     | Ok again => Ok (VList again)
     | Raise e => Raise (HTTPException 500 (str e))
     end /\
   engine_calls (events (get_data request req) w) =
     [(h, Search (qr_question request) 5 (workspace_filter (qr_workspace_id request)));
      (h, Search (qr_question request) 5 (workspace_filter (qr_workspace_id request)))])
  /\
  (first <> [] ->
   outcome (get_data request req) w = Ok (VList first) /\
   engine_calls (events (get_data request req) w) =
     [(h, Search (qr_question request) 5 (workspace_filter (qr_workspace_id request)))]).
Proof.
  set (q := qr_question request).
  set (md := workspace_filter (qr_workspace_id request)).
  intros Hauth Hres Hfirst.
  assert (Hev := get_data_events request req w h Hres). cbv zeta in Hev.
  rewrite Hauth in Hev. unfold first_search_empty in Hev.
  rewrite Hres in Hev. fold q md in Hev. rewrite Hfirst in Hev. cbn [fst] in Hev.
  assert (Hout : outcome (get_data request req) w =
                 match first with
                 | [] => match (app_search h q 5 md x1).1 with
                         | Ok again => Ok (VList again)
                         | Raise e => Raise (HTTPException 500 (str e))
                         end
                 | _ :: _ => Ok (VList first)
                 end).
  { unfold outcome, get_data. rewrite guarded_run, Hauth. cbv zeta.
    rewrite (resolved_run _ _ _ _ Hres). unfold try_except, bind.
    rewrite search_run. fold q md. rewrite Hfirst.
    destruct first as [|v l]; cbn [fst snd length Nat.eqb]; [|reflexivity].
    rewrite search_run. cbn [ext].
    destruct (app_search h q 5 md x1) as [[l'|e'] x']; reflexivity. }
  rewrite Hout, Hev. cbn [engine_calls].
  rewrite engine_calls_app, get_workspace_app_calls.
  split.
  - intros ->. split; reflexivity.
  - intros Hne. destruct first; [contradiction|]. split; reflexivity.
Qed.

(** C9: for a request that passes authentication and whose
    [delete_data] call returns, the delete handler returns a status
    string in which the file name occurs. *)
Theorem C9_delete_confirmation_contains_file_name k file_name url key req w h v :
  authenticated w req ->
  outcome (get_workspace_app k) w = Ok h ->
  (app_delete_data h file_name (workspace_filter k) (ext (final (get_workspace_app k) w))).1 = Ok v ->
  exists confirmation,
    outcome (delete_data k file_name url key req) w =
      Ok (VDict [("status"%string, VStr confirmation)]) /\
    contains confirmation file_name.
Proof.
  intros Hauth Hres Hdel.
  exists ("Data " +:+ file_name +:+ " deleted successfully")%string. split.
  - unfold outcome, delete_data. rewrite guarded_run, Hauth.
    rewrite (resolved_run _ _ _ _ Hres). unfold try_except, bind.
    rewrite app_delete_run.
    destruct (app_delete_data _ _ _ _) as [[v'|e] x]; [reflexivity|discriminate].
  - exists "Data "%string, " deleted successfully"%string. reflexivity.
Qed.

(** The ingestion handler with an empty field: the handle is resolved
    first; if that returns, the request is then refused. *)
Lemma train_empty_fields_run (request : TrainRequest) req w :
  authenticated w req ->
  validated (PostTrain request req) = false ->
  train request req w =
  (match outcome (get_workspace_app (tr_workspace_id request)) w with
   | Ok _ => Raise (HTTPException 400 "Both 'file_url' and 'data_type' are required")
   | Raise e => Raise e
   end,
   final (get_workspace_app (tr_workspace_id request)) w,
   SignatureCheck :: events (get_workspace_app (tr_workspace_id request)) w).
Proof.
  intros Hauth Hval. cbn [validated] in Hval.
  destruct (outcome (get_workspace_app (tr_workspace_id request)) w) as [h|e] eqn:Hres.
  - unfold train. rewrite guarded_run, Hauth. cbv zeta.
    rewrite (resolved_run _ _ _ _ Hres).
    destruct (truthy (tr_file_url request)), (truthy (tr_data_type request));
      try discriminate; cbn [negb orb]; unfold raise; rewrite app_nil_r; reflexivity.
  - exact (handle_request_unresolved (PostTrain request req) req _ w e
             eq_refl eq_refl Hauth Hres).
Qed.

Lemma empty_field_not_validated (request : TrainRequest) req :
  tr_file_url request = EmptyString \/ tr_data_type request = EmptyString ->
  validated (PostTrain request req) = false.
Proof.
  cbn [validated]. intros [-> | ->]; [reflexivity|]. apply andb_false_r.
Qed.

(** C2 (amended): an ingestion request that passes authentication and
    has an empty [file_url] or [data_type] first has its workspace's
    handle resolved.  When the resolution returns, the handle being cached
    if it was not, the request is refused with 400; when it raises, that
    exception is the answer.  Either way no engine call is made. *)
Theorem C2_train_refuses_empty_fields_after_resolution_before_engine
    (request : TrainRequest) req w :
  authenticated w req ->
  tr_file_url request = EmptyString \/ tr_data_type request = EmptyString ->
  (forall h, outcome (get_workspace_app (tr_workspace_id request)) w = Ok h ->
     outcome (train request req) w =
       Raise (HTTPException 400 "Both 'file_url' and 'data_type' are required") /\
     status (respond (outcome (train request req) w)) = 400 /\
     workspace_apps (final (train request req) w) !! tr_workspace_id request = Some h) /\
  (forall e, outcome (get_workspace_app (tr_workspace_id request)) w = Raise e ->
     outcome (train request req) w = Raise e) /\
  (exists rest,
     events (train request req) w =
       SignatureCheck :: Resolve (tr_workspace_id request) :: rest) /\
  final (train request req) w = final (get_workspace_app (tr_workspace_id request)) w /\
  engine_calls (events (train request req) w) = [].
Proof.
  intros Hauth Hempty. apply (empty_field_not_validated _ req) in Hempty.
  unfold outcome at 2 3 5, final at 1 2, events at 1 2.
  rewrite (train_empty_fields_run _ _ _ Hauth Hempty). cbn [fst snd].
  split; [|split; [|split; [|split; [reflexivity|]]]].
  - intros h Hres. rewrite Hres. split; [reflexivity|]. split; [reflexivity|].
    apply (get_workspace_app_returns _ _ _ Hres).
  - intros e Hres. rewrite Hres. reflexivity.
  - destruct (get_workspace_app_first_event (tr_workspace_id request) w) as [rest ->].
    eexists. reflexivity.
  - cbn [engine_calls]. apply get_workspace_app_calls.
Qed.

Lemma create_workspace_events request w :
  events (create_workspace request) w = [] \/
  exists row, events (create_workspace request) w = [BackendInsert "workspaces" row].
Proof.
  unfold events, create_workspace, generate_workspace_id, bind.
  pose proof (choices_events (ascii_letters +:+ digits) 12 w) as Hc.
  unfold events in Hc.
  destruct (choices _ 12 w) as [[[cs|e] w1] l]; cbn in Hc; subst; [|left; reflexivity].
  unfold ret, emit, call. cbn.
  destruct (supabase_insert _ _ _ _ _) as [[v|e] x]; right; eexists; reflexivity.
Qed.

(** All the engine calls of a data request. *)
Lemma handle_request_calls a req k w :
  carried_request a = Some req ->
  caller_workspace a = Some k ->
  match signature_verdict (headers req !! "X-Signature"%string)
          (environ w !! "HMAC_SECRET"%string) (body req),
        outcome (get_workspace_app k) w with
  | Ok _, Ok h =>
      exists cs,
        engine_calls (events (handle_request a) w) = map (pair h) cs /\
        Forall (fun c => call_metadata c = workspace_filter k /\
                         handler_capability a = Some (call_capability c)) cs /\
        length cs = (if validated a
                     then if first_search_empty w a then 2 else 1
                     else 0)
  | _, _ => engine_calls (events (handle_request a) w) = []
  end.
Proof.
  intros Hreq Hk.
  destruct (signature_verdict _ _ _) as [[]|e] eqn:Hv.
  - assert (Hauth : authenticated w req) by exact Hv.
    destruct (outcome (get_workspace_app k) w) as [h|e] eqn:Hres.
    + destruct (handle_request_events a req k w h Hreq Hk Hres) as (cs & Hev & Hcs & Hlen).
      exists cs. split; [|auto]. rewrite Hev, Hv. cbn [engine_calls].
      rewrite engine_calls_app, get_workspace_app_calls, engine_calls_map. reflexivity.
    + unfold events at 1. rewrite (handle_request_unresolved a req k w e Hreq Hk Hauth Hres).
      cbn [snd engine_calls]. apply get_workspace_app_calls.
  - unfold events. rewrite (handle_request_rejected a req w e Hreq Hv).
    destruct (outcome (get_workspace_app k) w); reflexivity.
Qed.

(** C8 (amended): every engine call of a run is made on the handle of
    the caller's workspace, with the filter [{"workspace_id": k}] for that
    workspace [k], and is of the handler's one capability.  A request that
    gets as far as the engine, its handle resolved, makes one call, or two
    when the query handler's first search returns an empty list.  A
    request whose resolution raises makes none, and neither does any
    other request, workspace creation included. *)
Theorem C8_engine_calls_use_one_capability_and_the_workspace_filter a w :
  (forall h c, In (h, c) (engine_calls (events (handle_request a) w)) ->
     exists k,
       caller_workspace a = Some k /\
       call_metadata c = workspace_filter k /\
       handler_capability a = Some (call_capability c) /\
       outcome (get_workspace_app k) w = Ok h) /\
  (admitted w a ->
   forall k h, caller_workspace a = Some k ->
     outcome (get_workspace_app k) w = Ok h ->
     length (engine_calls (events (handle_request a) w)) =
     if first_search_empty w a then 2 else 1) /\
  (forall k e, caller_workspace a = Some k ->
     outcome (get_workspace_app k) w = Raise e ->
     engine_calls (events (handle_request a) w) = []) /\
  (~ admitted w a -> engine_calls (events (handle_request a) w) = []).
Proof.
  unfold admitted.
  destruct (carried_request a) as [req|] eqn:Hreq.
  - assert (exists k, caller_workspace a = Some k) as [k Hk]
      by (destruct a; cbn in Hreq |- *; try discriminate; eauto).
    pose proof (handle_request_calls a req k w Hreq Hk) as Hcalls.
    split; [|split; [|split]].
    + intros h' c Hin.
      destruct (signature_verdict _ _ _) as [[]|e'];
        [|rewrite Hcalls in Hin; destruct Hin].
      destruct (outcome (get_workspace_app k) w) as [h|e'] eqn:Hres;
        [|rewrite Hcalls in Hin; destruct Hin].
      destruct Hcalls as (cs & Hc & Hcs & _). rewrite Hc in Hin.
      apply in_map_iff in Hin as (c' & [= <- <-] & Hin).
      rewrite Forall_forall in Hcs. apply list_elem_of_In, Hcs in Hin as [Hmd Hcap].
      exists k. auto.
    + intros [Hauth Hval] k' h Hk' Hres.
      assert (k' = k) as -> by congruence.
      rewrite Hauth, Hres in Hcalls. destruct Hcalls as (cs & Hc & _ & Hlen).
      rewrite Hc, length_map, Hlen, Hval. reflexivity.
    + intros k' e Hk' Hres. assert (k' = k) as -> by congruence.
      rewrite Hres in Hcalls. destruct (signature_verdict _ _ _); exact Hcalls.
    + intros Hn. destruct (signature_verdict _ _ _) as [[]|e] eqn:Hv; [|exact Hcalls].
      destruct (outcome (get_workspace_app k) w) as [h|e]; [|exact Hcalls].
      destruct Hcalls as (cs & Hc & _ & Hlen). rewrite Hc.
      destruct (validated a).
      * exfalso. apply Hn. split; [exact Hv|reflexivity].
      * destruct cs; [reflexivity|discriminate].
  - destruct a; cbn in Hreq; try discriminate. cbn [handle_request].
    assert (Hnone : engine_calls (events (create_workspace request) w) = [])
      by (destruct (create_workspace_events request w) as [-> | [row ->]]; reflexivity).
    rewrite Hnone. split; [intros h c []|]. split; [intros []|].
    split; [discriminate|reflexivity].
Qed.

End HandlerClaims.

(** ** Workspace identifiers (claim C7) *)

Section Identifiers.
Context {Ext : Type} `{External Ext}.
Implicit Types (w : world Ext).

Lemma string_get_lt s i :
  i < String.length s ->
  exists c, String.get i s = Some c /\ In c (list_ascii_of_string s).
Proof.
  revert i. induction s as [|a s IH]; intros i Hi; cbn in Hi; [lia|].
  destruct i as [|i]; cbn.
  - exists a. auto.
  - destruct (IH i) as (c & Hc & Hin); [lia|]. exists c. auto.
Qed.

(** [floor(random() * n)] is an index below [n]. *)
Lemma random_index_lt (p : N) n :
  0 < n -> N.to_nat ((p mod 2 ^ 53) * N.of_nat n / 2 ^ 53)%N < n.
Proof.
  intros Hn.
  assert (Hp : (p mod 2 ^ 53 < 2 ^ 53)%N) by (apply N.mod_lt; discriminate).
  assert (Hlt : ((p mod 2 ^ 53) * N.of_nat n / 2 ^ 53 < N.of_nat n)%N).
  { apply N.Div0.div_lt_upper_bound. apply N.mul_lt_mono_pos_r; [lia|exact Hp]. }
  lia.
Qed.

Lemma choices_returns population n w :
  0 < String.length population ->
  exists cs,
    outcome (choices population n) w = Ok cs /\
    length cs = n /\
    Forall (fun c => In c (list_ascii_of_string population)) cs.
Proof.
  intros Hpop. revert w. induction n as [|n IH]; intros w.
  - exists []. repeat split. constructor.
  - unfold outcome in *. cbn [choices]. unfold bind, py_random, call.
    destruct (random (ext w)) as [p x].
    destruct (string_get_lt population _ (random_index_lt p _ Hpop)) as (c & Hc & Hin).
    rewrite Hc.
    match goal with |- context [choices population n ?w0] =>
      destruct (IH w0) as (cs & Hcs & Hlen & Hall);
      destruct (choices population n w0) as [[r w1] l] end.
    cbn in Hcs. subst r. exists (c :: cs). cbn.
    split; [reflexivity|]. split; [congruence|]. constructor; assumption.
Qed.

Lemma string_of_list_ascii_length cs :
  String.length (string_of_list_ascii cs) = length cs.
Proof. induction cs as [|c cs IH]; cbn; congruence. Qed.

Lemma alphabet_is_alnum :
  forallb is_alnum (list_ascii_of_string (ascii_letters +:+ digits)) = true.
Proof. reflexivity. Qed.

Lemma alphabet_has_62_distinct_characters :
  String.length (ascii_letters +:+ digits) = 62 /\
  NoDup (list_ascii_of_string (ascii_letters +:+ digits)).
Proof. split; [reflexivity|]. apply (bool_decide_unpack _). vm_compute. exact I. Qed.

(** C7: [generate_workspace_id] always returns a string of 12
    characters, each one of the 62 letters and digits, and
    [create_workspace] returns that identifier, with the name, whenever
    the database insert returns. *)
Theorem C7_workspace_id_is_12_alphanumeric_characters
    (request : WorkspaceCreateRequest) w :
  exists id,
    outcome generate_workspace_id w = Ok id /\
    String.length id = 12 /\
    Forall (fun c => In c (list_ascii_of_string (ascii_letters +:+ digits)) /\
                     is_alnum c = true)
           (list_ascii_of_string id) /\
    String.length (ascii_letters +:+ digits) = 62 /\
    outcome (create_workspace request) w =
      match (supabase_insert (wc_supabase_url request) (wc_supabase_key request)
               "workspaces"
               [("workspace_id"%string, VStr id);
                ("workspace_name"%string, VStr (wc_workspace_name request))]
               (ext (final generate_workspace_id w))).1 with
      | Ok _ => Ok (VDict [("workspace_id"%string, VStr id);
                           ("workspace_name"%string, VStr (wc_workspace_name request))])
      | Raise e => Raise e
      end.
Proof.
  destruct (choices_returns (ascii_letters +:+ digits) 12 w) as (cs & Hcs & Hlen & Hall).
  { replace (String.length (ascii_letters +:+ digits)) with 62 by reflexivity. lia. }
  exists (string_of_list_ascii cs).
  unfold outcome, final, create_workspace, generate_workspace_id, bind in *.
  destruct (choices _ 12 w) as [[r w1] l]. cbn in Hcs. subst r.
  unfold ret, emit, call. cbn [fst snd].
  split; [reflexivity|]. split; [rewrite string_of_list_ascii_length; exact Hlen|].
  split; [|split; [reflexivity|]].
  - rewrite list_ascii_of_string_of_list_ascii.
    eapply Forall_impl; [exact Hall|]. cbn beta. intros c Hin. split; [exact Hin|].
    pose proof alphabet_is_alnum as Ha. rewrite forallb_forall in Ha. auto.
  - destruct (supabase_insert _ _ _ _ _) as [[v|e] x]; reflexivity.
Qed.

End Identifiers.

(** ** Concrete runs *)

Lemma demo_authenticated (s : script) :
  authenticated (demo_world s) (signed demo_secret "payload").
Proof.
  exact (signed_authenticated (demo_world s) demo_secret "payload"
           (demo_env_secret s) eq_refl).
Qed.

Lemma C1_witness :
  (("wsA"%string = "wsA"%string ->
    outcome (get_workspace_app "wsA")
            (final (handle_request (GetDataList "wsC" (unsigned "payload")))
                   (final (get_workspace_app "wsA") (demo_world quiet))) = Ok 0) /\
   ("wsA"%string <> "wsA"%string ->
    forall h2,
      outcome (get_workspace_app "wsA")
              (final (handle_request (GetDataList "wsC" (unsigned "payload")))
                     (final (get_workspace_app "wsA") (demo_world quiet))) = Ok h2 ->
      0 <> h2)) /\
  (("wsA"%string = "wsB"%string ->
    outcome (get_workspace_app "wsB")
            (final (handle_request (GetDataList "wsC" (unsigned "payload")))
                   (final (get_workspace_app "wsA") (demo_world quiet))) = Ok 0) /\
   ("wsA"%string <> "wsB"%string ->
    forall h2,
      outcome (get_workspace_app "wsB")
              (final (handle_request (GetDataList "wsC" (unsigned "payload")))
                     (final (get_workspace_app "wsA") (demo_world quiet))) = Ok h2 ->
      0 <> h2)).
Proof.
  assert (Hr : reachable (demo_world quiet)) by (exists demo_env, quiet; apply rtc_refl).
  assert (Hs : rtc serves (final (get_workspace_app "wsA") (demo_world quiet))
                 (final (handle_request (GetDataList "wsC" (unsigned "payload")))
                        (final (get_workspace_app "wsA") (demo_world quiet)))).
  { apply rtc_once. exists (GetDataList "wsC" (unsigned "payload")). reflexivity. }
  split.
  - exact (C1_resolution_same_id_same_handle_distinct_ids_distinct_handles
             (demo_world quiet) _ "wsA" "wsA" 0 Hr eq_refl Hs).
  - exact (C1_resolution_same_id_same_handle_distinct_ids_distinct_handles
             (demo_world quiet) _ "wsA" "wsB" 0 Hr eq_refl Hs).
Defined.

(** C2 (as stated) fails: an authenticated request with an empty
    [file_url] is refused with 400, but only after its workspace was
    resolved, an engine object created for it and cached; and the same
    request without a signature is refused with 403, not 400. *)
Lemma C2_counterexample_handle_resolved_before_the_400 :
  outcome (train (demo_train "" "pdf_file") (signed demo_secret "payload"))
          (demo_world quiet) =
    Raise (HTTPException 400 "Both 'file_url' and 'data_type' are required") /\
  events (train (demo_train "" "pdf_file") (signed demo_secret "payload"))
         (demo_world quiet) =
    [SignatureCheck; Resolve "wsA"; FromConfig "config.yaml" 0] /\
  workspace_apps (demo_world quiet) !! "wsA"%string = None /\
  workspace_apps (final (train (demo_train "" "pdf_file") (signed demo_secret "payload"))
                        (demo_world quiet)) !! "wsA"%string = Some 0 /\
  outcome (train (demo_train "" "pdf_file") (unsigned "payload")) (demo_world quiet) =
    Raise (HTTPException 403 "Signature missing").
Proof.
  pose proof (train_empty_fields_run (demo_train "" "pdf_file")
                (signed demo_secret "payload") (demo_world quiet)
                (demo_authenticated quiet) eq_refl) as Hrun.
  pose proof (handle_request_rejected
                (PostTrain (demo_train "" "pdf_file") (unsigned "payload"))
                (unsigned "payload") (demo_world quiet)
                (HTTPException 403 "Signature missing") eq_refl eq_refl) as Hrej.
  cbn [handle_request] in Hrej.
  unfold outcome, events, final. rewrite Hrun, Hrej. cbn [fst snd].
  split; [reflexivity|]. split; [reflexivity|]. split; [reflexivity|].
  split; reflexivity.
Qed.

Lemma C2_witness :
  outcome (train (demo_train "" "pdf_file") (signed demo_secret "payload"))
          (demo_world quiet) =
    Raise (HTTPException 400 "Both 'file_url' and 'data_type' are required").
Proof.
  exact (proj1 (proj1 (C2_train_refuses_empty_fields_after_resolution_before_engine
                         (demo_train "" "pdf_file") (signed demo_secret "payload")
                         (demo_world quiet) (demo_authenticated quiet)
                         (or_introl eq_refl))
                      0 eq_refl)).
Defined.

Lemma C5_witness :
  outcome (get_data demo_question (signed demo_secret "payload"))
          (demo_world empty_then_found) = Ok (VList [VStr "a document"]) /\
  engine_calls (events (get_data demo_question (signed demo_secret "payload"))
                       (demo_world empty_then_found)) =
    [(0, Search "what is rocq" 5 (workspace_filter "wsA"));
     (0, Search "what is rocq" 5 (workspace_filter "wsA"))].
Proof.
  exact (proj1 (C5_get_data_retries_an_empty_search_exactly_once
                  demo_question (signed demo_secret "payload")
                  (demo_world empty_then_found) 0 []
                  (Script [] [Ok [VStr "a document"]] [] [] [] [] [])
                  (demo_authenticated empty_then_found) eq_refl eq_refl) eq_refl).
Defined.

Lemma C6_witness :
  respond (outcome (train_qna demo_qna (signed demo_secret "payload"))
                   (demo_world refusing)) =
  {| status := 422;
     content := VDict [("detail"%string, VStr "Invalid question-answer pair")] |}.
Proof.
  exact (C6_train_qna_maps_ValueError_to_422_and_others_to_500
           demo_qna (signed demo_secret "payload") (demo_world refusing) 0
           (demo_authenticated refusing) eq_refl).
Defined.

(** C8 (as stated) fails: the query handler calls the engine twice when
    the first search finds nothing, and the ingestion handler does not
    call it at all for a request it refuses. *)
Lemma C8_counterexample_two_engine_calls_and_none :
  engine_calls (events (get_data demo_question (signed demo_secret "payload"))
                       (demo_world empty_then_found)) =
    [(0, Search "what is rocq" 5 (workspace_filter "wsA"));
     (0, Search "what is rocq" 5 (workspace_filter "wsA"))] /\
  engine_calls (events (train (demo_train "" "pdf_file") (signed demo_secret "payload"))
                       (demo_world quiet)) = [].
Proof.
  split.
  - pose proof (get_data_events demo_question (signed demo_secret "payload")
                  (demo_world empty_then_found) 0 eq_refl) as Hev.
    cbv zeta in Hev. rewrite (demo_authenticated empty_then_found) in Hev.
    rewrite Hev. reflexivity.
  - pose proof (train_empty_fields_run (demo_train "" "pdf_file")
                  (signed demo_secret "payload") (demo_world quiet)
                  (demo_authenticated quiet) eq_refl) as Hrun.
    unfold events. rewrite Hrun. reflexivity.
Qed.

Lemma C9_witness :
  exists confirmation,
    outcome (delete_data "wsA" "report.pdf" "https://db.example" "k"
                         (signed demo_secret "payload")) (demo_world quiet) =
      Ok (VDict [("status"%string, VStr confirmation)]) /\
    contains confirmation "report.pdf".
Proof.
  exact (C9_delete_confirmation_contains_file_name
           "wsA" "report.pdf" "https://db.example" "k" (signed demo_secret "payload")
           (demo_world quiet) 0 VNone (demo_authenticated quiet) eq_refl eq_refl).
Defined.

(** * Further properties of the code *)

(** ** Signature verification accepts nothing but the keyed hash *)

Section SignatureSoundness.
Context {Ext : Type} `{External Ext}.
Implicit Types (w : world Ext) (req : Request).

(** A secret of ASCII characters is its own encoding. *)
Lemma ascii_bytes_have_no_surrogate (l : list N) fuel pos :
  Forall (fun b => (b <= 0x7F)%N) l ->
  first_surrogates pos (surrogateescape fuel l) = None.
Proof.
  revert fuel pos. induction l as [|b l IH]; intros fuel pos Hall.
  - destruct fuel; reflexivity.
  - destruct fuel as [|fuel]; [reflexivity|].
    apply Forall_cons in Hall as [Hb Hl].
    cbn [surrogateescape utf8_sequence_length].
    apply N.leb_le in Hb. rewrite Hb. cbn [first_surrogates drop].
    apply IH, Hl.
Qed.

Lemma ascii_encodes s : is_ascii s = true -> encode_str s = Ok s.
Proof.
  intros Hs. unfold encode_str, decoded.
  rewrite ascii_bytes_have_no_surrogate; [reflexivity|].
  induction s as [|c s IH]; [constructor|].
  cbn [is_ascii] in Hs. apply andb_true_iff in Hs as [Hc Hs].
  cbn [list_ascii_of_string List.map]. constructor; [|auto].
  unfold is_ascii_char in Hc. apply N.ltb_lt in Hc. lia.
Qed.

Example encode_e_acute :
  encode_str (String (ascii_of_nat 195) (String (ascii_of_nat 169) EmptyString)) =
    Ok (String (ascii_of_nat 195) (String (ascii_of_nat 169) EmptyString)) /\
  encode_str (String (ascii_of_nat 233) EmptyString) =
    Raise (ValueError
      "'utf-8' codec can't encode character '\udce9' in position 0: surrogates not allowed") /\
  encode_str (String "a" (String (ascii_of_nat 233) (String (ascii_of_nat 255) EmptyString))) =
    Raise (ValueError
      "'utf-8' codec can't encode characters in position 1-2: surrogates not allowed").
Proof. repeat split. Qed.

Lemma signature_verdict_ok (signature secret : option string) payload :
  signature_verdict signature secret payload = Ok tt <->
  exists key, secret = Some key /\
              utf8_wellformed key = true /\
              signature = Some (SHA256.hmac_hexdigest key payload).
Proof.
  unfold signature_verdict. split.
  - destruct signature as [s|]; cbn [truthy_opt negb]; [|discriminate].
    destruct (truthy s); cbn [negb]; [|discriminate].
    destruct secret as [secret|]; [|discriminate].
    destruct (encode_str secret) as [key|e] eqn:Hk; [|discriminate].
    pose proof (encode_str_returns _ _ Hk) as ->.
    cbn [default from_option id].
    destruct (is_ascii _ && is_ascii s); [|discriminate].
    destruct (String.eqb_spec (SHA256.hmac_hexdigest secret payload) s) as [<-|];
      [|discriminate].
    intros _. exists secret. split; [reflexivity|].
    split; [apply utf8_wellformed_encodes, Hk|reflexivity].
  - intros (key & -> & Hk & ->). apply utf8_wellformed_encodes in Hk. rewrite Hk.
    cbn [truthy_opt default from_option id].
    rewrite hexdigest_truthy, hexdigest_ascii. cbn [negb andb].
    rewrite String.eqb_refl. reflexivity.
Qed.

(** X1: [verify_hmac_signature] returns normally exactly when the secret
    is set, [encode()] returns its bytes, which it does when the variable
    holds well-formed UTF-8, and the header holds the keyed hash of the
    body under these bytes; in every case it leaves the world as it found
    it. *)
Theorem verify_hmac_signature_accepts_exactly_the_keyed_hash req secret w :
  (outcome (verify_hmac_signature req secret) w = Ok tt <->
   exists key, secret = Some key /\
               utf8_wellformed key = true /\
               headers req !! "X-Signature"%string =
                 Some (SHA256.hmac_hexdigest key (body req))) /\
  final (verify_hmac_signature req secret) w = w.
Proof.
  unfold outcome, final. rewrite verify_hmac_signature_run. cbn [fst snd].
  split; [apply signature_verdict_ok|reflexivity].
Qed.

(** The verdict when the secret is not set. *)
Lemma signature_verdict_no_secret (signature : option string) payload :
  signature_verdict signature None payload =
  Raise (if truthy_opt signature
         then AttributeError "'NoneType' object has no attribute 'encode'"
         else HTTPException 403 "Signature missing").
Proof. unfold signature_verdict. destruct (truthy_opt signature); reflexivity. Qed.

(** X2: when [HMAC_SECRET] is not set, every data route answers a request
    that carries a signature with a plain 500 and a request without one
    with 403; in both cases nothing is resolved and no engine call made. *)
Theorem data_routes_without_secret a req w :
  carried_request a = Some req ->
  environ w !! "HMAC_SECRET"%string = None ->
  respond (outcome (handle_request a) w) =
    (if truthy_opt (headers req !! "X-Signature"%string)
     then {| status := 500; content := VStr "Internal Server Error" |}
     else {| status := 403;
             content := VDict [("detail"%string, VStr "Signature missing")] |}) /\
  final (handle_request a) w = w /\
  events (handle_request a) w = [SignatureCheck].
Proof.
  intros Hreq Henv.
  pose proof (signature_verdict_no_secret (headers req !! "X-Signature"%string)
                (body req)) as Hv.
  rewrite <- Henv in Hv.
  unfold outcome, final, events.
  rewrite (handle_request_rejected a req w _ Hreq Hv). cbn [fst snd].
  destruct (truthy_opt _); repeat split.
Qed.

End SignatureSoundness.

(** ** What each data route answers *)

Section Responses.
Context {Ext : Type} `{External Ext}.
Implicit Types (w : world Ext) (req : Request) (k : string).

Lemma get_data_outcome (request : QuestionRequest) req w h :
  authenticated w req ->
  outcome (get_workspace_app (qr_workspace_id request)) w = Ok h ->
  outcome (get_data request req) w =
  match app_search h (qr_question request) 5
                   (workspace_filter (qr_workspace_id request)) (ext (final (get_workspace_app (qr_workspace_id request)) w)) with
  | (Ok [], x1) =>
      match (app_search h (qr_question request) 5
                        (workspace_filter (qr_workspace_id request)) x1).1 with
      | Ok again => Ok (VList again)
      | Raise e => Raise (HTTPException 500 (str e))
      end
  | (Ok first, _) => Ok (VList first)
  | (Raise e, _) => Raise (HTTPException 500 (str e))
  end.
Proof.
  intros Hauth Hres. unfold outcome at 1, get_data.
  rewrite guarded_run, Hauth. cbv zeta.
  rewrite (resolved_run _ _ _ _ Hres). unfold try_except, bind.
  rewrite search_run.
  destruct (app_search _ _ _ _ _) as [[[|v l]|e] x]; cbn [fst snd length Nat.eqb];
    [|reflexivity|reflexivity].
  rewrite search_run. cbn [ext].
  destruct (app_search _ _ _ _ x) as [[l'|e'] x']; reflexivity.
Qed.

Lemma train_outcome (request : TrainRequest) req w h :
  authenticated w req ->
  outcome (get_workspace_app (tr_workspace_id request)) w = Ok h ->
  outcome (train request req) w =
  if validated (PostTrain request req) then
    match (app_add h (SourceStr (tr_file_url request)) (tr_data_type request)
                   (workspace_filter (tr_workspace_id request)) (ext (final (get_workspace_app (tr_workspace_id request)) w))).1 with
    | Ok _ => Ok (VDict [("status"%string, VStr "Training data added successfully")])
    | Raise e => Raise (HTTPException 500 (str e))
    end
  else Raise (HTTPException 400 "Both 'file_url' and 'data_type' are required").
Proof.
  intros Hauth Hres. unfold outcome at 1, train, validated.
  rewrite guarded_run, Hauth. cbv zeta.
  rewrite (resolved_run _ _ _ _ Hres).
  destruct (truthy (tr_file_url request)), (truthy (tr_data_type request));
    cbn [negb orb andb]; try reflexivity.
  unfold try_except, bind. rewrite add_run.
  destruct (app_add _ _ _ _ _) as [[v|e] x]; reflexivity.
Qed.

Lemma train_qna_outcome (request : QnARequest) req w h :
  authenticated w req ->
  outcome (get_workspace_app (qa_workspace_id request)) w = Ok h ->
  outcome (train_qna request req) w =
  match (app_add h (SourcePair (qa_question request) (qa_answer request))
                 (qa_data_type request) (workspace_filter (qa_workspace_id request))
                 (ext (final (get_workspace_app (qa_workspace_id request)) w))).1 with
  | Ok _ => Ok (VDict [("status"%string, VStr "Q&A pair added successfully")])
  | Raise e => Raise (HTTPException (if is_ValueError e then 422 else 500) (str e))
  end.
Proof.
  intros Hauth Hres. unfold outcome at 1, train_qna.
  rewrite guarded_run, Hauth. cbv zeta.
  rewrite (resolved_run _ _ _ _ Hres). unfold try_except, bind.
  rewrite add_run.
  destruct (app_add _ _ _ _ _) as [[v|e] x]; cbn; [reflexivity|].
  destruct (is_ValueError e); reflexivity.
Qed.

Lemma list_data_outcome k req w h :
  authenticated w req ->
  outcome (get_workspace_app k) w = Ok h ->
  outcome (list_data k req) w =
  match (app_list_data h (workspace_filter k) (ext (final (get_workspace_app k) w))).1 with
  | Ok data_list => Ok (VDict [("data"%string, data_list)])
  | Raise e => Raise (HTTPException 500 (str e))
  end.
Proof.
  intros Hauth Hres. unfold outcome at 1, list_data.
  rewrite guarded_run, Hauth.
  rewrite (resolved_run _ _ _ _ Hres). unfold try_except, bind.
  rewrite app_list_run.
  destruct (app_list_data _ _ _) as [[v|e] x]; reflexivity.
Qed.

Lemma delete_data_outcome k file_name url key req w h :
  authenticated w req ->
  outcome (get_workspace_app k) w = Ok h ->
  outcome (delete_data k file_name url key req) w =
  match (app_delete_data h file_name (workspace_filter k) (ext (final (get_workspace_app k) w))).1 with
  | Ok _ => Ok (VDict [("status"%string,
                        VStr ("Data " +:+ file_name +:+ " deleted successfully"))])
  | Raise e => Raise (HTTPException 500 (str e))
  end.
Proof.
  intros Hauth Hres. unfold outcome at 1, delete_data.
  rewrite guarded_run, Hauth.
  rewrite (resolved_run _ _ _ _ Hres). unfold try_except, bind.
  rewrite app_delete_run.
  destruct (app_delete_data _ _ _ _) as [[v|e] x]; reflexivity.
Qed.

(** X3: for an authenticated ingestion request with both fields present,
    the response is 200 with the status message when the engine's [add]
    returns, and 500 with [str] of the error when it raises, a
    [ValueError] included: only the Q&A route answers 422. *)
Theorem train_answers_200_or_500_and_never_422 (request : TrainRequest) req w h :
  authenticated w req ->
  outcome (get_workspace_app (tr_workspace_id request)) w = Ok h ->
  tr_file_url request <> EmptyString ->
  tr_data_type request <> EmptyString ->
  respond (outcome (train request req) w) =
  match (app_add h (SourceStr (tr_file_url request)) (tr_data_type request)
                 (workspace_filter (tr_workspace_id request)) (ext (final (get_workspace_app (tr_workspace_id request)) w))).1 with
  | Ok _ =>
      {| status := 200;
         content := VDict [("status"%string, VStr "Training data added successfully")] |}
  | Raise e =>
      {| status := 500; content := VDict [("detail"%string, VStr (str e))] |}
  end.
Proof.
  intros Hauth Hres Hurl Htype. rewrite (train_outcome _ _ _ _ Hauth Hres).
  cbn [validated].
  destruct (tr_file_url request); [contradiction|].
  destruct (tr_data_type request); [contradiction|]. cbn [truthy andb].
  destruct (app_add _ _ _ _ _).1; reflexivity.
Qed.

(** X4: for an authenticated request the list route returns, under the
    key [data], exactly what the engine's [list_data] returned for the
    filter of that workspace, and answers 500 with [str] of the error
    when the engine raises. *)
Theorem list_data_returns_what_the_engine_lists k req w h :
  authenticated w req ->
  outcome (get_workspace_app k) w = Ok h ->
  respond (outcome (list_data k req) w) =
  match (app_list_data h (workspace_filter k) (ext (final (get_workspace_app k) w))).1 with
  | Ok data_list =>
      {| status := 200; content := VDict [("data"%string, data_list)] |}
  | Raise e =>
      {| status := 500; content := VDict [("detail"%string, VStr (str e))] |}
  end.
Proof.
  intros Hauth Hres. rewrite (list_data_outcome _ _ _ _ Hauth Hres).
  destruct (app_list_data _ _ _).1; reflexivity.
Qed.

(** X5: when the first search of an authenticated query raises, the
    handler answers 500 with [str] of the error and does not search
    again: the retry is for an empty result only. *)
Theorem get_data_does_not_retry_a_failed_search
    (request : QuestionRequest) req w h e x1 :
  authenticated w req ->
  outcome (get_workspace_app (qr_workspace_id request)) w = Ok h ->
  app_search h (qr_question request) 5 (workspace_filter (qr_workspace_id request))
             (ext (final (get_workspace_app (qr_workspace_id request)) w)) = (Raise e, x1) ->
  respond (outcome (get_data request req) w) =
    {| status := 500; content := VDict [("detail"%string, VStr (str e))] |} /\
  engine_calls (events (get_data request req) w) =
    [(h, Search (qr_question request) 5 (workspace_filter (qr_workspace_id request)))] /\
  ext (final (get_data request req) w) = x1.
Proof.
  intros Hauth Hres Hfirst. split; [|split].
  - rewrite (get_data_outcome _ _ _ _ Hauth Hres), Hfirst. reflexivity.
  - pose proof (get_data_events request req w h Hres) as Hev. cbv zeta in Hev.
    rewrite Hauth in Hev. unfold first_search_empty in Hev.
    rewrite Hres, Hfirst in Hev. rewrite Hev. cbn [engine_calls fst].
    rewrite engine_calls_app, get_workspace_app_calls. reflexivity.
  - unfold final, get_data. rewrite guarded_run, Hauth. cbv zeta.
    rewrite (resolved_run _ _ _ _ Hres). unfold try_except, bind.
    rewrite search_run, Hfirst. reflexivity.
Qed.

(** X6: when the engine's [delete_data] raises for an authenticated
    request, the delete route answers 500 with [str] of the error; the
    confirmation is sent only when the call returns. *)
Theorem delete_data_answers_500_when_the_engine_raises
    k file_name url key req w h e :
  authenticated w req ->
  outcome (get_workspace_app k) w = Ok h ->
  (app_delete_data h file_name (workspace_filter k) (ext (final (get_workspace_app k) w))).1 = Raise e ->
  respond (outcome (delete_data k file_name url key req) w) =
    {| status := 500; content := VDict [("detail"%string, VStr (str e))] |} /\
  engine_calls (events (delete_data k file_name url key req) w) =
    [(h, DeleteData file_name (workspace_filter k))].
Proof.
  intros Hauth Hres Hdel. split.
  - rewrite (delete_data_outcome _ _ _ _ _ _ _ Hauth Hres), Hdel. reflexivity.
  - rewrite (delete_data_events _ _ _ _ _ _ _ Hres), Hauth. cbn [engine_calls].
    rewrite engine_calls_app, get_workspace_app_calls. reflexivity.
Qed.

Lemma rejected_status (signature secret : option string) payload e :
  signature_verdict signature secret payload = Raise e ->
  status (respond (Raise e)) = 403 \/ status (respond (Raise e)) = 500.
Proof.
  unfold signature_verdict.
  destruct (negb (truthy_opt signature)); [intros [= <-]; auto|].
  destruct secret as [secret|]; [|intros [= <-]; auto].
  destruct (encode_str secret) as [key|e'] eqn:Hk.
  - destruct (is_ascii _ && is_ascii _); [|intros [= <-]; auto].
    destruct (String.eqb _ _); [discriminate|intros [= <-]; auto].
  - intros [= <-]. apply encode_str_raises in Hk. destruct e'; try discriminate. auto.
Qed.

(** X7: once a request has reached its handler, bound to the handler's
    parameters, and provided the workspace's handle resolves, a data
    route answers with one of the status codes of its row, whatever the
    engine does: 200, 403 or 500, and besides them 400 on the ingestion
    route only and 422 on the Q&A route only. *)
Theorem data_routes_answer_with_their_status_codes a req k w h :
  carried_request a = Some req ->
  caller_workspace a = Some k ->
  outcome (get_workspace_app k) w = Ok h ->
  In (status (respond (outcome (handle_request a) w))) (route_statuses a).
Proof.
  intros Hreq Hk Hres.
  destruct (signature_verdict (headers req !! "X-Signature"%string)
              (environ w !! "HMAC_SECRET"%string) (body req)) as [[]|e] eqn:Hv.
  - assert (Hauth : authenticated w req) by exact Hv.
    destruct a as [request|request r|request r|request r|k' r|k' file_name url key r];
      cbn in Hreq, Hk; try discriminate; injection Hreq as ->; injection Hk as <-;
      cbn [handle_request route_statuses].
    + rewrite (get_data_outcome _ _ _ _ Hauth Hres).
      destruct (app_search _ _ _ _ _) as [[[|v l]|e] x]; cbn; auto.
      destruct (app_search _ _ _ _ x).1; cbn; auto.
    + rewrite (train_outcome _ _ _ _ Hauth Hres).
      destruct (validated _); [|cbn; auto].
      destruct (app_add _ _ _ _ _).1; cbn; auto.
    + rewrite (train_qna_outcome _ _ _ _ Hauth Hres).
      destruct (app_add _ _ _ _ _).1 as [v|e]; cbn; auto.
      destruct (is_ValueError e); auto.
    + rewrite (list_data_outcome _ _ _ _ Hauth Hres).
      destruct (app_list_data _ _ _).1; cbn; auto.
    + rewrite (delete_data_outcome _ _ _ _ _ _ _ Hauth Hres).
      destruct (app_delete_data _ _ _ _).1; cbn; auto.
  - unfold outcome. rewrite (handle_request_rejected a req w e Hreq Hv). cbn [fst].
    destruct (rejected_status _ _ _ _ Hv) as [-> | ->];
      destruct a; cbn in Hreq |- *; try discriminate; auto 6.
Qed.

End Responses.

(** ** The cache across requests *)

Section CacheGrowth.
Context {Ext : Type} `{External Ext}.
Implicit Types (w : world Ext) (req : Request) (k : string).

Lemma same_cache_refl w : same_cache w w.
Proof. repeat split. Qed.

(** Once the handle is resolved, the rest of a data handler acts on the
    outside world only. *)
Lemma handle_request_after_resolution a req k w :
  carried_request a = Some req ->
  caller_workspace a = Some k ->
  authenticated w req ->
  same_cache (final (get_workspace_app k) w) (final (handle_request a) w).
Proof.
  intros Hreq Hk Hauth.
  destruct (outcome (get_workspace_app k) w) as [h|e] eqn:Hres;
    [|unfold final at 2; rewrite (handle_request_unresolved a req k w e Hreq Hk Hauth Hres);
      apply same_cache_refl].
  destruct a as [request|request r|request r|request r|k' r|k' file_name url key r];
    cbn in Hreq, Hk; try discriminate;
    injection Hreq as ->; injection Hk as <-; cbn [handle_request];
    unfold final at 2, get_data, train, train_qna, list_data, delete_data;
    rewrite guarded_run, Hauth; cbv zeta;
    rewrite (resolved_run _ _ _ _ Hres); unfold try_except, bind.
  - rewrite search_run.
    destruct (app_search _ _ _ _ _) as [[[|v l]|e] x]; cbn [fst snd length Nat.eqb];
      [|repeat split..].
    rewrite search_run. cbn [ext].
    destruct (app_search _ _ _ _ x) as [[l'|e'] x']; repeat split.
  - destruct (negb (truthy (tr_file_url request)) || negb (truthy (tr_data_type request)));
      [repeat split|].
    rewrite add_run. destruct (app_add _ _ _ _ _) as [[v|e] x]; repeat split.
  - rewrite add_run. destruct (app_add _ _ _ _ _) as [[v|e] x]; cbn; [repeat split|].
    destruct (is_ValueError e); repeat split.
  - rewrite app_list_run. destruct (app_list_data _ _ _) as [[v|e] x]; repeat split.
  - rewrite app_delete_run. destruct (app_delete_data _ _ _ _) as [[v|e] x]; repeat split.
Qed.

(** X8: an authenticated data request whose handle resolves leaves its
    workspace identifier cached, whatever the engine then does and even
    when the request is refused with 400: the cache after the request is
    the cache before it with that identifier added if it was absent, so
    it holds at most one entry more.  When the resolution raises, the
    cache is as it was. *)
Theorem authenticated_request_caches_its_workspace a req k w :
  carried_request a = Some req ->
  caller_workspace a = Some k ->
  authenticated w req ->
  (forall h, outcome (get_workspace_app k) w = Ok h ->
     workspace_apps (final (handle_request a) w) =
       match workspace_apps w !! k with
       | Some _ => workspace_apps w
       | None => <[k := next_handle w]> (workspace_apps w)
       end /\
     workspace_apps (final (handle_request a) w) !! k = Some h /\
     size (workspace_apps (final (handle_request a) w)) =
       match workspace_apps w !! k with
       | Some _ => size (workspace_apps w)
       | None => S (size (workspace_apps w))
       end) /\
  (forall e, outcome (get_workspace_app k) w = Raise e ->
     workspace_apps (final (handle_request a) w) = workspace_apps w /\
     outcome (handle_request a) w = Raise e).
Proof.
  intros Hreq Hk Hauth. split.
  - intros h Hres.
    destruct (handle_request_after_resolution a req k w Hreq Hk Hauth) as (-> & _ & _).
    destruct (get_workspace_app_returns k w h Hres) as (Hin & _).
    split; [|split; [exact Hin|]].
    + revert Hres. unfold outcome, final. rewrite get_workspace_app_run.
      destruct (workspace_apps w !! k) as [h'|] eqn:E; [reflexivity|].
      destruct (app_from_config _ _) as [[[]|e] x]; [reflexivity|discriminate].
    + revert Hres. unfold outcome, final. rewrite get_workspace_app_run.
      destruct (workspace_apps w !! k) as [h'|] eqn:E; [reflexivity|].
      destruct (app_from_config _ _) as [[[]|e] x]; [|discriminate].
      intros _. cbn [fst snd workspace_apps]. apply (map_size_insert_None _ _ _ E).
  - intros e Hres. unfold final, outcome.
    rewrite (handle_request_unresolved a req k w e Hreq Hk Hauth Hres). cbn [fst snd].
    destruct (get_workspace_app_raises k w e Hres) as (_ & _ & (Hs & _) & _). auto.
Qed.

Lemma choices_same_cache population n w :
  same_cache w (final (choices population n) w).
Proof.
  revert w. induction n as [|n IH]; intros w; [apply same_cache_refl|].
  unfold final in *. cbn [choices]. unfold bind, py_random, call.
  destruct (random (ext w)) as [p x].
  destruct (String.get _ population); [|repeat split].
  match goal with |- context [choices population n ?w0] =>
    specialize (IH w0); destruct (choices population n w0) as [[[cs|e] w1] l] end;
    exact IH.
Qed.

Lemma create_workspace_inserts_nothing (request : WorkspaceCreateRequest) w :
  same_cache w (final (create_workspace request) w).
Proof.
  pose proof (choices_same_cache (ascii_letters +:+ digits) 12 w) as Hsame.
  unfold final, create_workspace, generate_workspace_id, bind in *.
  destruct (choices _ 12 w) as [[[cs|e] w1] l]; cbn [fst snd] in *; [|exact Hsame].
  unfold ret, emit, call. cbn [fst snd].
  destruct (supabase_insert _ _ _ _ _) as [[v|e] x]; exact Hsame.
Qed.


(** Every request leaves the cache as it was or as one resolution makes it. *)
Lemma handle_request_cache a w :
  same_cache w (final (handle_request a) w) \/
  exists k, same_cache (final (get_workspace_app k) w) (final (handle_request a) w).
Proof.
  destruct (carried_request a) as [req|] eqn:Hreq.
  - assert (exists k, caller_workspace a = Some k) as [k Hk]
      by (destruct a; cbn in Hreq |- *; try discriminate; eauto).
    destruct (signature_verdict (headers req !! "X-Signature"%string)
                (environ w !! "HMAC_SECRET"%string) (body req)) as [[]|e] eqn:Hv.
    + right. exists k. exact (handle_request_after_resolution a req k w Hreq Hk Hv).
    + left. unfold final. rewrite (handle_request_rejected a req w e Hreq Hv).
      apply same_cache_refl.
  - left. destruct a; cbn in Hreq; try discriminate.
    apply create_workspace_inserts_nothing.
Qed.

End CacheGrowth.

(** ** The cache of a running server *)

Section CacheInvariant.
Context {Ext : Type} `{External Ext}.
Implicit Types (w : world Ext) (k : string).

Lemma same_cache_invariant w w' :
  same_cache w w' ->
  cache_counted w /\ cache_onto w -> cache_counted w' /\ cache_onto w'.
Proof.
  unfold cache_counted, cache_onto. intros (Ha & Hn & _) [Hc Ho].
  rewrite Ha, Hn. auto.
Qed.

Lemma get_workspace_app_invariant k w :
  cache_counted w /\ cache_onto w ->
  cache_counted (final (get_workspace_app k) w) /\
  cache_onto (final (get_workspace_app k) w).
Proof.
  unfold final. rewrite get_workspace_app_run.
  destruct (workspace_apps w !! k) as [h|] eqn:E; cbn [fst snd]; [auto|].
  destruct (app_from_config _ _) as [[[]|e] x]; cbn [fst snd];
    [|unfold cache_counted, cache_onto; cbn [workspace_apps next_handle]; auto].
  unfold cache_counted, cache_onto. cbn [workspace_apps next_handle]. intros [Hc Ho]. split.
  - rewrite (map_size_insert_None _ _ _ E), Hc. reflexivity.
  - intros h Hh. destruct (decide (h = next_handle w)) as [->|Hne].
    + exists k. apply lookup_insert_eq.
    + destruct (Ho h) as [k' Hk']; [lia|]. exists k'.
      rewrite lookup_insert_ne; [exact Hk'|].
      intros Heq. rewrite Heq in E.
      pose proof (eq_trans (eq_sym E) Hk') as Hbad. discriminate.
Qed.

Lemma rtc_serves_invariant w w' :
  rtc serves w w' ->
  cache_counted w /\ cache_onto w -> cache_counted w' /\ cache_onto w'.
Proof.
  induction 1 as [|w1 w2 w3 [a ->] _ IH]; [auto|]. intros Hinv. apply IH.
  destruct (handle_request_cache a w1) as [Hs|[k Hs]].
  - exact (same_cache_invariant _ _ Hs Hinv).
  - apply (same_cache_invariant _ _ Hs), get_workspace_app_invariant, Hinv.
Qed.

(** X10: in every world a server reaches from its empty cache, the cache
    is a one-to-one correspondence between the cached identifiers and the
    engine objects created so far: there are as many entries as objects,
    no object is cached under two identifiers, and every object created is
    still cached. *)
Theorem reachable_cache_pairs_identifiers_with_objects w :
  reachable w ->
  size (workspace_apps w) = next_handle w /\
  (forall k h, workspace_apps w !! k = Some h -> h < next_handle w) /\
  (forall k1 k2 h, workspace_apps w !! k1 = Some h ->
                   workspace_apps w !! k2 = Some h -> k1 = k2) /\
  (forall h, h < next_handle w -> exists k, workspace_apps w !! k = Some h).
Proof.
  intros Hr. destruct (reachable_wf w Hr) as [Hlt Hinj].
  destruct Hr as (env & x & Hrtc).
  destruct (rtc_serves_invariant _ _ Hrtc) as [Hc Ho].
  - split.
    + unfold cache_counted. cbn. apply map_size_empty.
    + intros h Hh. cbn in Hh. lia.
  - auto.
Qed.

(** X11: over any sequence of requests a cached handle is never evicted
    or replaced, the cached identifiers only grow in number, and the
    environment is never modified. *)
Theorem served_requests_never_evict_a_handle w w' :
  rtc serves w w' ->
  (forall k h, workspace_apps w !! k = Some h -> workspace_apps w' !! k = Some h) /\
  dom (workspace_apps w) ⊆ dom (workspace_apps w') /\
  environ w' = environ w.
Proof.
  intros Hrtc. apply rtc_serves_extends in Hrtc as (_ & _ & Henv & Hkeep).
  split; [exact Hkeep|]. split; [|exact Henv].
  intros k. rewrite !elem_of_dom. intros [h Hh]. exists h. auto.
Qed.

End CacheInvariant.

(** ** The environment at import *)

Section Startup.
Context {Ext : Type} `{External Ext}.
Implicit Types (w : world Ext).

(** [os.environ[name] = os.getenv(name)]: a variable that is set is
    written back unchanged, one that is not stops the import. *)
Lemma copy_variable_run {A} name (rest : M A) w :
  bind (getenv name) (fun v => bind (setenv name v) (fun _ => rest)) w =
  match environ w !! name with
  | Some _ => rest w
  | None => (Raise (TypeError "str expected, not NoneType"), w, [])
  end.
Proof.
  unfold bind, getenv, gets, setenv, modify, raise.
  destruct (environ w !! name) as [s|] eqn:E; [|reflexivity].
  rewrite (insert_id _ _ _ E), world_eta.
  destruct (rest w) as [[r w'] l]. reflexivity.
Qed.

Lemma set_environment_variables_run w :
  set_environment_variables w =
  if all_set (environ w) copied_variables
  then (Ok tt,
        World (workspace_apps w) (next_handle w)
              (<["TOKENIZERS_PARALLELISM"%string := "false"%string]> (environ w)) (ext w),
        [])
  else (Raise (TypeError "str expected, not NoneType"), w, []).
Proof.
  unfold set_environment_variables, all_set, copied_variables. cbn [forallb].
  rewrite copy_variable_run.
  destruct (environ w !! "TOGETHER_API_KEY"%string) eqn:E1; [|reflexivity].
  rewrite copy_variable_run.
  destruct (environ w !! "ZILLIZ_CLOUD_URI"%string) eqn:E2; [|reflexivity].
  rewrite copy_variable_run.
  destruct (environ w !! "ZILLIZ_CLOUD_TOKEN"%string) eqn:E3; [|reflexivity].
  rewrite copy_variable_run.
  destruct (environ w !! "PINECONE_API_KEY"%string) eqn:E4; reflexivity.
Qed.

(** X12: the import succeeds exactly when the four API variables are set
    after [load_dotenv()]; it then leaves every variable as it was except
    [TOKENIZERS_PARALLELISM], which becomes [false].  If one of the four is
    missing it stops with [TypeError] and the environment is as it was.
    The cache and the outside world are not touched either way. *)
Theorem set_environment_variables_needs_the_four_api_variables w :
  (outcome set_environment_variables w = Ok tt <->
   forall name, In name copied_variables -> is_Some (environ w !! name)) /\
  (outcome set_environment_variables w = Ok tt ->
   environ (final set_environment_variables w) =
     <["TOKENIZERS_PARALLELISM"%string := "false"%string]> (environ w)) /\
  (outcome set_environment_variables w <> Ok tt ->
   outcome set_environment_variables w = Raise (TypeError "str expected, not NoneType") /\
   final set_environment_variables w = w) /\
  workspace_apps (final set_environment_variables w) = workspace_apps w /\
  ext (final set_environment_variables w) = ext w.
Proof.
  unfold outcome, final. rewrite set_environment_variables_run.
  assert (Hall : all_set (environ w) copied_variables = true <->
                 forall name, In name copied_variables -> is_Some (environ w !! name)).
  { unfold all_set. rewrite forallb_forall. split; intros Hf name Hin.
    - eapply bool_decide_eq_true. exact (Hf name Hin).
    - apply bool_decide_eq_true. exact (Hf name Hin). }
  destruct (all_set (environ w) copied_variables); cbn [fst snd].
  - split; [split; [intros _; apply Hall; reflexivity|intros _; reflexivity]|].
    split; [intros _; reflexivity|].
    split; [intros Hn; destruct Hn; reflexivity|]. split; reflexivity.
  - split; [split; [discriminate|intros Hf; apply Hall in Hf; discriminate]|].
    split; [discriminate|]. split; [intros _; split; reflexivity|]. split; reflexivity.
Qed.

End Startup.

(** ** How the parts compose *)

Section Composition.
Context {Ext : Type} `{External Ext}.
Implicit Types (w : world Ext) (req : Request) (k : string).

(** X13: the import does not ask for [HMAC_SECRET]: with the four API
    variables set and no secret, it succeeds, and the server it starts
    answers every data request that carries a signature with a plain 500,
    and one without a signature with 403. *)
Theorem import_succeeds_without_secret_and_signed_requests_get_500 a req w :
  all_set (environ w) copied_variables = true ->
  environ w !! "HMAC_SECRET"%string = None ->
  carried_request a = Some req ->
  outcome set_environment_variables w = Ok tt /\
  respond (outcome (handle_request a) (final set_environment_variables w)) =
    (if truthy_opt (headers req !! "X-Signature"%string)
     then {| status := 500; content := VStr "Internal Server Error" |}
     else {| status := 403;
             content := VDict [("detail"%string, VStr "Signature missing")] |}).
Proof.
  intros Hset Hnone Hreq. unfold outcome, final.
  rewrite set_environment_variables_run, Hset. cbn [fst snd]. split; [reflexivity|].
  match goal with |- context [handle_request a ?w0] => set (w1 := w0) end.
  assert (Henv : environ w1 !! "HMAC_SECRET"%string = None).
  { subst w1. cbn [environ]. rewrite lookup_insert_ne; [exact Hnone|discriminate]. }
  pose proof (signature_verdict_no_secret (headers req !! "X-Signature"%string)
                (body req)) as Hv.
  rewrite <- Henv in Hv.
  rewrite (handle_request_rejected a req w1 _ Hreq Hv). cbn [fst].
  destruct (truthy_opt _); reflexivity.
Qed.

(** X14: the engine object of a workspace is built once: after a
    resolution of [k] that returned, and whatever requests are served in
    between, a further resolution of [k] finds the same handle in the
    cache, does not run the constructor and changes nothing. *)
Theorem from_config_runs_once_per_workspace k w w1 h :
  outcome (get_workspace_app k) w = Ok h ->
  rtc serves (final (get_workspace_app k) w) w1 ->
  get_workspace_app k w1 = (Ok h, w1, [Resolve k]).
Proof.
  intros Hres Hrtc. apply rtc_serves_extends in Hrtc as (_ & _ & _ & Hkeep).
  destruct (get_workspace_app_returns k w h Hres) as (Hin & _).
  apply Hkeep in Hin. apply get_workspace_app_cached, Hin.
Qed.

End Composition.

(** ** Concrete runs of the further properties *)

Lemma data_routes_without_secret_witness :
  respond (outcome (handle_request (GetDataList "wsA" (latin1_signed "payload")))
                   (bare_world quiet)) =
    {| status := 500; content := VStr "Internal Server Error" |} /\
  final (handle_request (GetDataList "wsA" (latin1_signed "payload"))) (bare_world quiet) =
    bare_world quiet /\
  events (handle_request (GetDataList "wsA" (latin1_signed "payload"))) (bare_world quiet) =
    [SignatureCheck].
Proof.
  exact (data_routes_without_secret
           (GetDataList "wsA" (latin1_signed "payload")) (latin1_signed "payload")
           (bare_world quiet) eq_refl eq_refl).
Defined.

Lemma train_answers_200_or_500_and_never_422_witness :
  respond (outcome (train (demo_train "https://example.com/a.pdf" "pdf_file")
                          (signed demo_secret "payload")) (demo_world broken)) =
  {| status := 500;
     content := VDict [("detail"%string, VStr "unsupported data type")] |}.
Proof.
  refine (train_answers_200_or_500_and_never_422
            (demo_train "https://example.com/a.pdf" "pdf_file")
            (signed demo_secret "payload") (demo_world broken) 0
            (demo_authenticated broken) eq_refl _ _); discriminate.
Defined.

Lemma list_data_returns_what_the_engine_lists_witness :
  respond (outcome (list_data "wsA" (signed demo_secret "payload")) (demo_world listing)) =
  {| status := 200;
     content := VDict [("data"%string, VList [VStr "report.pdf"])] |}.
Proof.
  exact (list_data_returns_what_the_engine_lists
           "wsA" (signed demo_secret "payload") (demo_world listing) 0
           (demo_authenticated listing) eq_refl).
Defined.

Lemma get_data_does_not_retry_a_failed_search_witness :
  respond (outcome (get_data demo_question (signed demo_secret "payload"))
                   (demo_world broken)) =
    {| status := 500; content := VDict [("detail"%string, VStr "index unavailable")] |} /\
  engine_calls (events (get_data demo_question (signed demo_secret "payload"))
                       (demo_world broken)) =
    [(0, Search "what is rocq" 5 (workspace_filter "wsA"))].
Proof.
  pose proof (get_data_does_not_retry_a_failed_search
                demo_question (signed demo_secret "payload") (demo_world broken) 0
                (Exception "index unavailable")
                (Script [] [] (adds broken) (listings broken) (deletions broken) [] [])
                (demo_authenticated broken) eq_refl eq_refl) as (Hresp & Hcalls & _).
  exact (conj Hresp Hcalls).
Defined.

Lemma delete_data_answers_500_when_the_engine_raises_witness :
  respond (outcome (delete_data "wsA" "report.pdf" "https://db.example" "k"
                                (signed demo_secret "payload")) (demo_world broken)) =
    {| status := 500; content := VDict [("detail"%string, VStr "no such file")] |} /\
  engine_calls (events (delete_data "wsA" "report.pdf" "https://db.example" "k"
                                    (signed demo_secret "payload")) (demo_world broken)) =
    [(0, DeleteData "report.pdf" (workspace_filter "wsA"))].
Proof.
  exact (delete_data_answers_500_when_the_engine_raises
           "wsA" "report.pdf" "https://db.example" "k" (signed demo_secret "payload")
           (demo_world broken) 0 (Exception "no such file")
           (demo_authenticated broken) eq_refl eq_refl).
Defined.

Lemma data_routes_answer_with_their_status_codes_witness :
  In (status (respond (outcome (handle_request
                                  (PostTrainQna demo_qna (signed demo_secret "payload")))
                               (demo_world refusing))))
     [200; 403; 422; 500].
Proof.
  exact (data_routes_answer_with_their_status_codes
           (PostTrainQna demo_qna (signed demo_secret "payload"))
           (signed demo_secret "payload") "wsA" (demo_world refusing) 0
           eq_refl eq_refl eq_refl).
Defined.

Lemma authenticated_request_caches_its_workspace_witness :
  workspace_apps
    (final (handle_request
              (PostTrain (demo_train "" "pdf_file") (signed demo_secret "payload")))
           (demo_world quiet)) !! "wsA"%string = Some 0 /\
  workspace_apps
    (final (handle_request
              (PostTrain (demo_train "" "pdf_file") (signed demo_secret "payload")))
           (demo_world unconfigured)) = workspace_apps (demo_world unconfigured).
Proof.
  split.
  - exact (proj1 (proj2 (proj1 (authenticated_request_caches_its_workspace
                                  (PostTrain (demo_train "" "pdf_file")
                                             (signed demo_secret "payload"))
                                  (signed demo_secret "payload") "wsA" (demo_world quiet)
                                  eq_refl eq_refl (demo_authenticated quiet))
                               0 eq_refl))).
  - exact (proj1 (proj2 (authenticated_request_caches_its_workspace
                           (PostTrain (demo_train "" "pdf_file")
                                      (signed demo_secret "payload"))
                           (signed demo_secret "payload") "wsA" (demo_world unconfigured)
                           eq_refl eq_refl (demo_authenticated unconfigured))
                        (Exception "config.yaml not found") eq_refl)).
Defined.

Lemma reachable_cache_pairs_identifiers_with_objects_witness :
  size (workspace_apps
          (final (handle_request (GetDataList "wsA" (signed demo_secret "payload")))
                 (demo_world quiet))) =
  next_handle (final (handle_request (GetDataList "wsA" (signed demo_secret "payload")))
                     (demo_world quiet)).
Proof.
  refine (proj1 (reachable_cache_pairs_identifiers_with_objects
                   (final (handle_request (GetDataList "wsA" (signed demo_secret "payload")))
                          (demo_world quiet)) _)).
  exists demo_env, quiet. apply rtc_once.
  exists (GetDataList "wsA" (signed demo_secret "payload")). reflexivity.
Defined.

Lemma served_requests_never_evict_a_handle_witness :
  environ (final (handle_request (GetDataList "wsA" (signed demo_secret "payload")))
                 (demo_world quiet)) = environ (demo_world quiet).
Proof.
  refine (proj2 (proj2 (served_requests_never_evict_a_handle
                          (demo_world quiet)
                          (final (handle_request
                                    (GetDataList "wsA" (signed demo_secret "payload")))
                                 (demo_world quiet)) _))).
  apply rtc_once. exists (GetDataList "wsA" (signed demo_secret "payload")). reflexivity.
Defined.

Lemma import_succeeds_without_secret_and_signed_requests_get_500_witness :
  outcome set_environment_variables (keyed_world quiet) = Ok tt /\
  respond (outcome (handle_request (GetDataList "wsA" (latin1_signed "payload")))
                   (final set_environment_variables (keyed_world quiet))) =
    {| status := 500; content := VStr "Internal Server Error" |}.
Proof.
  exact (import_succeeds_without_secret_and_signed_requests_get_500
           (GetDataList "wsA" (latin1_signed "payload")) (latin1_signed "payload")
           (keyed_world quiet) eq_refl eq_refl eq_refl).
Defined.

Lemma from_config_runs_once_per_workspace_witness :
  get_workspace_app "wsA"
    (final (handle_request (GetDataList "wsB" (unsigned "payload")))
           (final (get_workspace_app "wsA") (demo_world quiet))) =
  (Ok 0,
   final (handle_request (GetDataList "wsB" (unsigned "payload")))
         (final (get_workspace_app "wsA") (demo_world quiet)),
   [Resolve "wsA"]).
Proof.
  refine (from_config_runs_once_per_workspace
            "wsA" (demo_world quiet)
            (final (handle_request (GetDataList "wsB" (unsigned "payload")))
                   (final (get_workspace_app "wsA") (demo_world quiet))) 0 eq_refl _).
  apply rtc_once. exists (GetDataList "wsB" (unsigned "payload")). reflexivity.
Defined.
